(** * vscode-drupal-check: the validation pipeline of the language server

    A shallow embedding of [server/src/checker.ts] (class [DrupalCheck]),
    of its earlier promise-based variant, and of the orchestration code of
    the server ([validateSingle], [validateMany], the settings cache),
    followed by the properties of the pipeline.

    Conventions of the embedding:
    - a JavaScript string is a [string]; its characters stand for the code
      units that [length] and [charCodeAt] see;
    - a JavaScript number that is used as a line or a column is a [Z];
    - [undefined] is [None] wherever the code can produce it;
    - a call that may throw returns a [Completion];
    - console output, notifications, published diagnostics and spawned
      processes are recorded, in order, as a list of [Event]s;
    - a call of [validateSingle] runs to its end: its [await]s are not
      interleaved with other handlers of the server. *)

From Stdlib Require Import ZArith Lia Ascii String.
From stdpp Require Import base option list strings gmap.

Local Open Scope Z_scope.
Local Open Scope string_scope.

(** ** JavaScript values and completions *)

Inductive ErrorKind := KError | KTypeError | KSyntaxError | KSystemError.

(** An exception object.  [err_stdout] and [err_stderr] are the properties
    that the rejection of the promise-based spawn carries and that the
    [catch] block of [check] inspects; a plain [new Error(..)] has neither. *)
Record JSError := mkJSError {
  err_kind : ErrorKind;
  err_message : option string;
  err_stdout : option string;
  err_stderr : option string
}.

Definition newError (message : string) : JSError :=
  mkJSError KError (Some message) None None.

(** A [TypeError] raised by the runtime; the wording of the message is the
    engine's, the text kept here only names the failing operation. *)
Definition typeError (message : string) : JSError :=
  mkJSError KTypeError (Some message) None None.

(** The outcome of a call of the runtime or of a library. *)
Inductive Result (A : Type) :=
| Ok (a : A)
| Raise (e : JSError).
Arguments Ok {A} a.
Arguments Raise {A} e.

(** The outcome of a function of the program.  [IllTyped] marks a run that
    reads as [DrupalCheckMessage] a value that does not inhabit that
    interface: the TypeScript types exclude it, and the embedding does not
    say what the untyped code does there. *)
Inductive Completion (A : Type) :=
| Normal (a : A)
| Throw (e : JSError)
| IllTyped.
Arguments Normal {A} a.
Arguments Throw {A} e.
Arguments IllTyped {A}.

Definition ofResult {A} (r : Result A) : Completion A :=
  match r with
  | Ok a => Normal a
  | Raise e => Throw e
  end.

Definition cbind {A B} (c : Completion A) (k : A -> Completion B) : Completion B :=
  match c with
  | Normal a => k a
  | Throw e => Throw e
  | IllTyped => IllTyped
  end.

(** [try { c } catch (error) { handler error }] *)
Definition tryCatch {A} (c : Completion A) (handler : JSError -> Completion A)
  : Completion A :=
  match c with
  | Throw e => handler e
  | _ => c
  end.

(** [xs.map(f)] for an [f] that may throw: elements are visited in order and
    the first exception ends the traversal. *)
Fixpoint mapC {A B} (f : A -> Completion B) (xs : list A) : Completion (list B) :=
  match xs with
  | [] => Normal []
  | x :: xs' => cbind (f x) (fun y => cbind (mapC f xs') (fun ys => Normal (y :: ys)))
  end.

(** The values [JSON.parse] returns, and [undefined].  The only numbers of a
    checker report are line numbers, so numbers are integers. *)
#[local] Set Warnings "-register-all".
Inductive JSValue :=
| JSUndefined
| JSNull
| JSBool (b : bool)
| JSNumber (z : Z)
| JSString (s : string)
| JSArray (elements : list JSValue)
| JSObject (properties : list (string * JSValue)).
#[local] Set Warnings "register-all".

(** [ToBoolean], as used by [!v] and [if (v)]. *)
Definition truthy (v : JSValue) : bool :=
  match v with
  | JSUndefined | JSNull => false
  | JSBool b => b
  | JSNumber z => negb (Z.eqb z 0)
  | JSString s => negb (String.eqb s "")
  | JSArray _ | JSObject _ => true
  end.

Fixpoint assoc (key : string) (properties : list (string * JSValue)) : JSValue :=
  match properties with
  | [] => JSUndefined
  | (k, v) :: rest => if String.eqb k key then v else assoc key rest
  end.

(** [v[key]] and [v.key] for the keys the program uses ([files], [messages],
    [message], [line] and absolute paths): an own property of an object,
    [undefined] on any other value that has properties, a [TypeError] on
    [null] and [undefined].  Members inherited from the prototypes are not
    among those keys. *)
Definition getProp (v : JSValue) (key : string) : Completion JSValue :=
  match v with
  | JSUndefined | JSNull =>
      Throw (typeError ("Cannot read property '" +:+ key +:+ "'"))
  | JSObject properties => Normal (assoc key properties)
  | _ => Normal JSUndefined
  end.

(** ** Strings *)

Definition truthyString (s : option string) : bool :=
  match s with
  | Some s => negb (String.eqb s "")
  | None => false
  end.

(** [s.charCodeAt(i)]; [None] is [NaN]. *)
Definition charCodeAt (s : string) (i : nat) : option nat :=
  match String.get i s with
  | Some c => Some (Ascii.nat_of_ascii c)
  | None => None
  end.

(** [s.split(sep)] for a separator of one character. *)
Fixpoint split (sep : ascii) (s : string) : list string :=
  match s with
  | EmptyString => [EmptyString]
  | String c s' =>
      if Ascii.eqb c sep then EmptyString :: split sep s'
      else match split sep s' with
           | l :: ls => String c l :: ls
           | [] => [String c EmptyString]
           end
  end.

(** [s.slice(n)] and [s.substr(n)] for [0 <= n]. *)
Fixpoint slice (s : string) (n : nat) : string :=
  match n, s with
  | O, _ => s
  | S n', String _ s' => slice s' n'
  | S _, EmptyString => EmptyString
  end.

(** [s.startsWith(p)] and [/^p/.test(s)] for a literal [p]. *)
Definition startsWith (s p : string) : bool := String.prefix p s.

(** The replacement text of [String.prototype.replace] for a string pattern:
    [$$], [$&], [$`] and [$'] are expanded, there are no captures. *)
Fixpoint getSubstitution (matched before after replacement : string) : string :=
  match replacement with
  | EmptyString => EmptyString
  | String c r =>
      if Ascii.eqb c "$" then
        match r with
        | String d r' =>
            if Ascii.eqb d "$" then String "$" (getSubstitution matched before after r')
            else if Ascii.eqb d "&" then matched +:+ getSubstitution matched before after r'
            else if Ascii.eqb d "`" then before +:+ getSubstitution matched before after r'
            else if Ascii.eqb d "'" then after +:+ getSubstitution matched before after r'
            else String c (getSubstitution matched before after r)
        | EmptyString => String c EmptyString
        end
      else String c (getSubstitution matched before after r)
  end.

(** [s.replace(p, replacement)] for a pattern [p] of one character: the first
    occurrence is replaced. *)
Fixpoint replaceFrom (before s : string) (p : ascii) (replacement : string) : string :=
  match s with
  | EmptyString => before
  | String c s' =>
      if Ascii.eqb c p
      then before +:+ getSubstitution (String p EmptyString) before s' replacement +:+ s'
      else replaceFrom (before +:+ String c EmptyString) s' p replacement
  end.

Definition replace (s : string) (p : ascii) (replacement : string) : string :=
  replaceFrom EmptyString s p replacement.

(** [message.replace(/\r?\n/g, ' ')] *)
Fixpoint replaceNewlines (s : string) : string :=
  match s with
  | EmptyString => EmptyString
  | String c s' =>
      if Ascii.eqb c "010" then String " " (replaceNewlines s')
      else if Ascii.eqb c "013" then
        match s' with
        | String d s'' =>
            if Ascii.eqb d "010" then String " " (replaceNewlines s'')
            else String c (replaceNewlines s')
        | EmptyString => String c EmptyString
        end
      else String c (replaceNewlines s')
  end.

(** ** Data model *)

(** [settings.ts] *)
Record CheckerSettings := mkCheckerSettings {
  enable : bool;
  executablePath : option string;
  workspaceRoot : option string;
  maxNumberOfProblems : Z
}.

(** A [TextDocument] of the language server: its URI and [getText()]. *)
Record TextDocument := mkTextDocument {
  uri : string;
  getText : string
}.

(** The interface [DrupalCheckMessage] as [createDiagnostic] reads it: the
    1-based line of the issue and its text. *)
Record DrupalCheckMessage := mkDrupalCheckMessage {
  line : Z;
  message : string
}.

Inductive DiagnosticSeverity := SevError | SevWarning | SevInformation | SevHint.

(** [Range.create(startLine, startCharacter, endLine, endCharacter)] *)
Record Range := Range_create {
  start_line : Z;
  start_character : Z;
  end_line : Z;
  end_character : Z
}.

(** [Diagnostic.create(range, message, severity, code, source)]; the code is
    always [null] in this program and is left out. *)
Record Diagnostic := Diagnostic_create {
  diag_range : Range;
  diag_message : string;
  diag_severity : DiagnosticSeverity;
  diag_source : string
}.

(** The options object handed to the spawned process. *)
Record SpawnOptions := mkSpawnOptions {
  cwd : option string;
  encoding : string;
  timeout : Z;
  tty : bool;
  input : string
}.

(** What [spawnSync] returns. *)
Record SpawnSyncReturns := mkSpawnSyncReturns {
  status : option Z;
  stdout : option string;
  stderr : option string
}.

(** What the program does to the outside, in order. *)
Inductive Event :=
| ConsoleInfo (text : string)
| ConsoleError (text : string)
| SpawnSync (command : string) (args : list (option string)) (options : SpawnOptions)
| Spawn (command : option string) (args : list (option string)) (options : SpawnOptions)
| SendNotification (method : string) (textDocument : string)
| TracerLog (text : string)
| SendDiagnostics (target : string) (diagnostics : option (list Diagnostic)).

(** [StringResources] of [strings.ts]: the texts themselves are parameters
    of the development. *)
Record StringResources := mkStringResources {
  CreateCheckerError : string;
  CreateCheckerErrorDefaultMessage : string;
  InvalidJsonStringError : string;
  DidStartValidateTextDocument : string;
  DidEndValidateTextDocument : string;
  UnknownErrorWhileValidatingTextDocument : string
}.

(** What the program takes from its surroundings, as parameters: the texts
    of [strings.ts]; [strings.format], [CharCode.isWhiteSpace] and
    [extfs.realpathSync] of the helper modules under [base/]; Node's [os],
    [process], [path], [child_process] and [JSON]; [Files.uriToFilePath] of
    the language-server library; the promise-based spawn of the earlier
    variant; and the configuration that the editor answers for a resource. *)
Record Env := mkEnv {
  SR : StringResources;
  format : string -> list (option string) -> string;
  isWhiteSpace : option nat -> bool;
  realpathSync : string -> Result string;
  homeDirectory : string;
  platform : string;
  uriToFilePath : string -> option string;
  path_parse_root : string -> string;
  path_join : string -> string -> string;
  toUpperCase : string -> string;
  spawnSync : string -> list (option string) -> SpawnOptions -> Result SpawnSyncReturns;
  spawn : option string -> list (option string) -> SpawnOptions -> Result string;
  JSON_parse : string -> option JSValue;
  getConfiguration : string -> Result CheckerSettings
}.

(** ** Computations that log: the methods of [DrupalCheck] *)

Definition Logged (A : Type) : Type := list Event * Completion A.

Definition lret {A} (a : A) : Logged A := ([], Normal a).
Definition lthrow {A} (e : JSError) : Logged A := ([], Throw e).
Definition emit (ev : Event) : Logged unit := ([ev], Normal tt).
Definition pure {A} (c : Completion A) : Logged A := ([], c).

Definition lbind {A B} (m : Logged A) (k : A -> Logged B) : Logged B :=
  match m with
  | (evs, Normal a) => let '(evs', r) := k a in ((evs ++ evs')%list, r)
  | (evs, Throw e) => (evs, Throw e)
  | (evs, IllTyped) => (evs, IllTyped)
  end.

(** [try { m } catch (error) { handler error }] *)
Definition ltryCatch {A} (m : Logged A) (handler : JSError -> Logged A) : Logged A :=
  match m with
  | (evs, Throw e) => let '(evs', r) := handler e in ((evs ++ evs')%list, r)
  | _ => m
  end.

Declare Scope logged_scope.
Delimit Scope logged_scope with logged.
Notation "x <- m ;; k" := (lbind m (fun x => k))
  (at level 100, m at next level, right associativity) : logged_scope.
Notation "m ;; k" := (lbind m (fun _ => k))
  (at level 100, right associativity) : logged_scope.

(** ** [checker.ts]: the parts shared by both variants *)

Section Checker.

Variable E : Env.

(** The second loop of [createDiagnostic]:
    [for (let i = startCharacter + 1, len = lineString.length; i < len; i++)].
    [fuel] bounds the number of iterations; [startCharacter_loop_fuel] shows
    that [len] iterations are never exhausted. *)
Fixpoint startCharacter_loop (fuel : nat) (lineString : string) (len i startCharacter : nat)
  : nat :=
  match fuel with
  | O => startCharacter
  | S fuel' =>
      if (i <? len)%nat then
        let charCode := charCodeAt lineString i in
        let startCharacter := i in
        if negb (isWhiteSpace E charCode) then startCharacter
        else startCharacter_loop fuel' lineString len (i + 1) startCharacter
      else startCharacter
  end.

(** "Process diagnostic start and end characters": the value of
    [startCharacter] when the range is built. *)
Definition startCharacter (lineString : string) : nat :=
  let startCharacter := 0%nat in
  let charCode := charCodeAt lineString startCharacter in
  if isWhiteSpace E charCode then
    startCharacter_loop (String.length lineString) lineString (String.length lineString)
      (startCharacter + 1) startCharacter
  else startCharacter.

(** [lines[line]] *)
Definition index {A} (xs : list A) (i : Z) : option A :=
  if Z.leb 0 i then xs !! Z.to_nat i else None.

Definition createDiagnostic (document : TextDocument) (entry : option DrupalCheckMessage)
  : Completion Diagnostic :=
  match entry with
  | None =>
      Normal (Diagnostic_create (Range_create 0 0 0 0) "" SevInformation "drupalchecker")
  | Some entry =>
      if String.eqb (message entry) "" then
        Normal (Diagnostic_create (Range_create 0 0 0 0) "" SevInformation "drupalchecker")
      else
        let lines := split "010" (getText document) in
        let line := line entry - 1 in
        match index lines line with
        | None => Throw (typeError "Cannot read property 'length' of undefined")
        | Some lineString =>
            let endCharacter := String.length lineString in
            let range := Range_create line (Z.of_nat (startCharacter lineString))
                                      line (Z.of_nat endCharacter) in
            Normal (Diagnostic_create range (message entry) SevError "drupalchecker")
        end
  end.

Definition parseData (text : string) : Completion JSValue :=
  match JSON_parse E text with
  | Some data => Normal data
  | None => Throw (newError (InvalidJsonStringError (SR E)))
  end.

(** An element of the parsed [messages] array read at the type
    [DrupalCheckMessage]: [null], or an object with a numeric [line] and a
    [message] string. *)
Definition asMessage (v : JSValue) : Completion (option DrupalCheckMessage) :=
  match v with
  | JSNull => Normal None
  | JSObject properties =>
      match assoc "line" properties, assoc "message" properties with
      | JSNumber l, JSString m => Normal (Some (mkDrupalCheckMessage l m))
      | _, _ => IllTyped
      end
  | _ => IllTyped
  end.

(** [messages.map(message => diagnostics.push(this.createDiagnostic(document, message)))]
    and [return diagnostics]: only an array has [map]. *)
Definition mapMessages (document : TextDocument) (messages : JSValue)
  : Completion (list Diagnostic) :=
  match messages with
  | JSArray elements =>
      mapC (fun m => cbind (asMessage m) (createDiagnostic document)) elements
  | JSUndefined | JSNull => Throw (typeError "Cannot read property 'map'")
  | _ => Throw (typeError "messages.map is not a function")
  end.

Definition processResults (filePath : option string) (document : TextDocument)
    (results : string) : Completion (list Diagnostic) :=
  cbind (parseData results) (fun data =>
  match filePath with
  | Some filePath =>
      cbind (ofResult (realpathSync E filePath)) (fun fileRealPath =>
      cbind (getProp data "files") (fun files =>
      cbind (getProp files fileRealPath) (fun fileEntry =>
      if negb (truthy fileEntry) then Normal []
      else cbind (getProp fileEntry "messages") (mapMessages document))))
  | None => mapMessages document (JSArray [])
  end).

End Checker.

(** "Process linting paths" at the head of [check]: the file path of the
    document, with the drive letter capitalised on Windows. *)
Definition lintPath (E : Env) (document : TextDocument) : option string :=
  let filePath := uriToFilePath E (uri document) in
  match filePath with
  | Some filePath =>
      if startsWith (platform E) "win" then
        let pathRoot := path_parse_root E filePath in
        let noDrivePath := slice filePath (Nat.max (String.length pathRoot - 1) 0) in
        Some (path_join E (toUpperCase E pathRoot) noDrivePath)
      else Some filePath
  | None => None
  end.

(** "Process linting arguments" *)
Definition lintArgs (filePath : option string) : list (option string) :=
  [Some "--format=json"; Some "--no-progress"; filePath].

Definition forcedKillTime : Z := 1000 * 60 * 5.

Definition lintOptions (settings : CheckerSettings) (text : string) : SpawnOptions :=
  mkSpawnOptions (workspaceRoot settings) "utf8" forcedKillTime true text.

(** [this.processResults(filePath, document, results)] where [check] returns
    its value. *)
Definition returnResults (E : Env) (filePath : option string) (document : TextDocument)
    (results : string) : Logged (option (list Diagnostic)) :=
  pure (cbind (processResults E filePath document results) (fun ds => Normal (Some ds))).

(** ** [server/src/checker.ts] *)

Module DrupalCheck.
Section WithEnv.

Variable E : Env.

Record t := new { this_executablePath : string }.

Definition create (executablePath : option string) : Completion t :=
  tryCatch
    (match executablePath with
     | None => Throw (typeError "Cannot read property 'startsWith' of null")
     | Some executablePath =>
         let expandedPath :=
           if startsWith executablePath "~/"
           then replace executablePath "~" (homeDirectory E)
           else executablePath in
         Normal (new expandedPath)
     end)
    (fun error =>
       let message :=
         if truthyString (err_message error)
         then err_message error
         else Some (CreateCheckerErrorDefaultMessage (SR E)) in
       Throw (newError (format E (CreateCheckerError (SR E)) [message]))).

(** The value [None] of the result is [undefined]: the [catch] block falls
    off the end of the function. *)
Definition check (this : t) (document : TextDocument) (settings : CheckerSettings)
  : Logged (option (list Diagnostic)) :=
  let filePath := lintPath E document in
  let fileText := getText document in
  if String.eqb fileText "" then lret (Some [])
  else
    let lintArgs := lintArgs filePath in
    let text := fileText in
    let options := lintOptions settings text in
    ltryCatch
      (output <- (([SpawnSync (this_executablePath this) lintArgs options],
                   ofResult (spawnSync E (this_executablePath this) lintArgs options))
                  : Logged SpawnSyncReturns) ;;
       emit (ConsoleInfo "Success!") ;;
       if negb (truthyString (stdout output)) then lthrow (newError "Missing output")
       else returnResults E filePath document (default "" (stdout output)))%logged
      (fun error =>
         if truthyString (err_stdout error) then
           (emit (ConsoleError "Issues found.") ;;
            returnResults E filePath document (default "" (err_stdout error)))%logged
         else if truthyString (err_stderr error) then
           (emit (ConsoleError "Error could not continue.") ;;
            emit (ConsoleError (default "" (err_stderr error))) ;;
            lret None)%logged
         else lret None).

End WithEnv.
End DrupalCheck.

(** ** The earlier variant of [checker.ts], on [cross-spawn-promise] *)

Module DrupalCheckPromise.
Section WithEnv.

Variable E : Env.

Record t := new { this_executablePath : option string }.

(** [new DrupalCheck(executablePath)] stores the path as it is; nothing in
    the [try] block can throw. *)
Definition create (executablePath : option string) : Completion t :=
  tryCatch
    (Normal (new executablePath))
    (fun error =>
       let message :=
         if truthyString (err_message error)
         then err_message error
         else Some (CreateCheckerErrorDefaultMessage (SR E)) in
       Throw (newError (format E (CreateCheckerError (SR E)) [message]))).

(** [spawn(..).then(onResolved).catch(onRejected)]: an exception of
    [onResolved] is handled by [onRejected] as well. *)
Definition check (this : t) (document : TextDocument) (settings : CheckerSettings)
  : Logged (option (list Diagnostic)) :=
  let filePath := lintPath E document in
  let fileText := getText document in
  if String.eqb fileText "" then lret (Some [])
  else
    let lintArgs := lintArgs filePath in
    let text := fileText in
    let options := lintOptions settings text in
    ltryCatch
      (out <- (([Spawn (this_executablePath this) lintArgs options],
                ofResult (spawn E (this_executablePath this) lintArgs options))
               : Logged string) ;;
       emit (ConsoleInfo "Success!") ;;
       returnResults E filePath document out)%logged
      (fun error =>
         if truthyString (err_stdout error) then
           (emit (ConsoleError "Issues found.") ;;
            returnResults E filePath document (default "" (err_stdout error)))%logged
         else if truthyString (err_stderr error) then
           (emit (ConsoleError "Issues found.") ;;
            emit (ConsoleError (default "" (err_stderr error))) ;;
            lret None)%logged
         else lret None).

End WithEnv.
End DrupalCheckPromise.

(** ** The server: settings cache and validation entry points *)

Module Server.

(** The module-level variables of the server that validation reads or
    writes, and the record of what it sent. *)
Record ServerState := mkServerState {
  hasConfigurationCapability : bool;
  globalSettings : CheckerSettings;
  documentSettings : gmap string (Result CheckerSettings);
  validating : gmap string TextDocument;
  trace : list Event
}.

Definition defaultSettings : CheckerSettings :=
  mkCheckerSettings true (Some "/usr/local/bin/drupal-check") None 1000.

Definition Server (A : Type) : Type := ServerState -> ServerState * Completion A.

Definition sret {A} (a : A) : Server A := fun st => (st, Normal a).
Definition sthrow {A} (e : JSError) : Server A := fun st => (st, Throw e).
Definition sillTyped {A} : Server A := fun st => (st, IllTyped).

Definition sbind {A B} (m : Server A) (k : A -> Server B) : Server B :=
  fun st =>
    match m st with
    | (st', Normal a) => k a st'
    | (st', Throw e) => (st', Throw e)
    | (st', IllTyped) => (st', IllTyped)
    end.

Declare Scope server_scope.
Delimit Scope server_scope with server.
Notation "x <- m ;; k" := (sbind m (fun x => k))
  (at level 100, m at next level, right associativity) : server_scope.
Notation "m ;; k" := (sbind m (fun _ => k))
  (at level 100, right associativity) : server_scope.

(** A [try] block run to its completion, which the [catch] and [finally]
    parts then inspect. *)
Definition attempt {A} (m : Server A) : Server (Completion A) :=
  fun st => let '(st', r) := m st in (st', Normal r).

Definition output (evs : list Event) : Server unit :=
  fun st =>
    (mkServerState (hasConfigurationCapability st) (globalSettings st)
       (documentSettings st) (validating st) (trace st ++ evs)%list,
     Normal tt).

Definition liftLogged {A} (m : Logged A) : Server A :=
  fun st => let '(st', _) := output (fst m) st in (st', snd m).

Definition await {A} (promise : Result A) : Server A :=
  fun st => (st, ofResult promise).

Definition setDocumentSettings (f : gmap string (Result CheckerSettings) ->
                                    gmap string (Result CheckerSettings)) : Server unit :=
  fun st =>
    (mkServerState (hasConfigurationCapability st) (globalSettings st)
       (f (documentSettings st)) (validating st) (trace st),
     Normal tt).

Definition setValidating (f : gmap string TextDocument -> gmap string TextDocument)
  : Server unit :=
  fun st =>
    (mkServerState (hasConfigurationCapability st) (globalSettings st)
       (documentSettings st) (f (validating st)) (trace st),
     Normal tt).

Definition setGlobalSettings (settings : CheckerSettings) : Server unit :=
  fun st =>
    (mkServerState (hasConfigurationCapability st) settings
       (documentSettings st) (validating st) (trace st),
     Normal tt).

Section WithEnv.

Variable E : Env.

Local Open Scope server_scope.

(** Returns the thenable that the cache holds for [resource]. *)
Definition getDocumentSettings (resource : string) : Server (Result CheckerSettings) :=
  fun st =>
    if negb (hasConfigurationCapability st) then sret (Ok (globalSettings st)) st
    else
      let result := documentSettings st !! resource in
      match result with
      | Some result => sret result st
      | None =>
          let result := getConfiguration E resource in
          (setDocumentSettings (insert resource result) ;; sret result) st
      end.

Definition sendStartValidationNotification (document : TextDocument) : Server unit :=
  setValidating (insert (uri document) document) ;;
  let start := "textDocument/didStartValidate" in
  output [SendNotification start (uri document)] ;;
  output [TracerLog (format E (DidStartValidateTextDocument (SR E)) [Some (uri document)])].

Definition sendEndValidationNotification (document : TextDocument) : Server unit :=
  setValidating (delete (uri document)) ;;
  let end_ := format E (DidEndValidateTextDocument (SR E)) [] in
  output [SendNotification end_ (uri document)] ;;
  output [TracerLog (format E (DidEndValidateTextDocument (SR E)) [Some (uri document)])].

Definition getExceptionMessage (exception : JSError) (document : TextDocument) : string :=
  match err_message exception with
  | Some message =>
      let message := replaceNewlines message in
      if startsWith message "ERROR: " then slice message 5 else message
  | None =>
      format E (UnknownErrorWhileValidatingTextDocument (SR E))
        [uriToFilePath E (uri document)]
  end.

Definition sendDiagnostics (target : string) (diagnostics : option (list Diagnostic))
  : Server unit :=
  output [SendDiagnostics target diagnostics].

Definition validateSingle (document : TextDocument) : Server unit :=
  let uri := uri document in
  promise <- getDocumentSettings uri ;;
  settings <- await promise ;;
  if enable settings then
    (* let diagnostics: Diagnostic[] = []; *)
    sendStartValidationNotification document ;;
    (* try *)
    outcome <- attempt
      (drupalcheck <- (fun st => (st, DrupalCheck.create E (executablePath settings))) ;;
       liftLogged (DrupalCheck.check E drupalcheck document settings)) ;;
    let diagnostics :=
      match outcome with
      | Normal diagnostics => diagnostics
      | _ => Some []
      end in
    (* finally *)
    sendEndValidationNotification document ;;
    sendDiagnostics uri diagnostics ;;
    (* catch: the completion of the statement *)
    match outcome with
    | Normal _ => sret tt
    | Throw error => sthrow (newError (getExceptionMessage error document))
    | IllTyped => sillTyped
    end
  else
    let diagnostics := Some [] in
    sendDiagnostics uri diagnostics ;;
    setDocumentSettings (delete uri).

(** [for (var i = 0, len = documents.length; i < len; i++)
       await validateSingle(documents[i]);] *)
Fixpoint validateMany (documents : list TextDocument) : Server unit :=
  match documents with
  | [] => sret tt
  | document :: rest => validateSingle document ;; validateMany rest
  end.

(** [documents.onDidClose] *)
Definition onDidClose (document : TextDocument) : Server unit :=
  setDocumentSettings (delete (uri document)).

(** [connection.onDidChangeConfiguration]; [drupalCheck] is
    [change.settings.drupalCheck] and [open_documents] is [documents.all()]. *)
Definition onDidChangeConfiguration (drupalCheck : option CheckerSettings)
    (open_documents : list TextDocument) : Server unit :=
  (fun st =>
     if hasConfigurationCapability st then setDocumentSettings (fun _ => ∅) st
     else setGlobalSettings (default defaultSettings drupalCheck) st) ;;
  validateMany open_documents.

End WithEnv.
End Server.

(** ** A concrete environment for the examples *)

Module Example.

Definition quote : string := String "034" EmptyString.

(** [{"files":{"/abs/path.php":{"messages":[{"line":5,"message":"Deprecated call"}]}}}] *)
Definition report_one : string :=
  "{" +:+ quote +:+ "files" +:+ quote +:+ ":{" +:+ quote +:+ "/abs/path.php" +:+ quote
  +:+ ":{" +:+ quote +:+ "messages" +:+ quote +:+ ":[{" +:+ quote +:+ "line" +:+ quote
  +:+ ":5," +:+ quote +:+ "message" +:+ quote +:+ ":" +:+ quote +:+ "Deprecated call"
  +:+ quote +:+ "}]}}}".

Definition report_one_value : JSValue :=
  JSObject [("files", JSObject [("/abs/path.php",
     JSObject [("messages", JSArray [JSObject [("line", JSNumber 5);
                                               ("message", JSString "Deprecated call")]])])])].

(** [{"files":{"/abs/path.php":{"messages":[{"line":1,"message":"first"},{"line":9,"message":"second"}]}}}] *)
Definition report_two : string :=
  "{" +:+ quote +:+ "files" +:+ quote +:+ ":{" +:+ quote +:+ "/abs/path.php" +:+ quote
  +:+ ":{" +:+ quote +:+ "messages" +:+ quote +:+ ":[{" +:+ quote +:+ "line" +:+ quote
  +:+ ":1," +:+ quote +:+ "message" +:+ quote +:+ ":" +:+ quote +:+ "first" +:+ quote
  +:+ "},{" +:+ quote +:+ "line" +:+ quote +:+ ":9," +:+ quote +:+ "message" +:+ quote
  +:+ ":" +:+ quote +:+ "second" +:+ quote +:+ "}]}}}".

Definition report_two_value : JSValue :=
  JSObject [("files", JSObject [("/abs/path.php",
     JSObject [("messages", JSArray [JSObject [("line", JSNumber 1);
                                               ("message", JSString "first")];
                                     JSObject [("line", JSNumber 9);
                                               ("message", JSString "second")]])])])].

(** [{"files":true}]: well-formed JSON in which [files] is not a mapping. *)
Definition report_files_true : string :=
  "{" +:+ quote +:+ "files" +:+ quote +:+ ":true}".

Definition report_files_true_value : JSValue := JSObject [("files", JSBool true)].

(** [JSON.parse] on the texts of the examples; any other text of the
    examples is not JSON. *)
Definition parse (text : string) : option JSValue :=
  if String.eqb text report_one then Some report_one_value
  else if String.eqb text report_two then Some report_two_value
  else if String.eqb text report_files_true then Some report_files_true_value
  else None.

(** Sample texts for [strings.ts]. *)
Definition resources : StringResources :=
  mkStringResources
    "Unable to create checker: "
    "unknown error"
    "The checker report contains invalid json."
    "Start validating "
    "drupalCheck/didEndValidate"
    "An unknown error occurred while validating ".

(** Modelled from the spec: [CharCode.isWhiteSpace] of
    [base/common/charcode], described there as classifying "space, tab, and
    other classified whitespace code points"; here space, tab, line feed and
    carriage return, and [NaN] is no whitespace. *)
Definition whiteSpace (charCode : option nat) : bool :=
  match charCode with
  | Some c => (c =? 32)%nat || (c =? 9)%nat || (c =? 10)%nat || (c =? 13)%nat
  | None => false
  end.

(** The file path of a [file://] URI. *)
Definition filePathOf (target : string) : option string :=
  if startsWith target "file://" then Some (slice target 7) else None.

(** An environment on a POSIX platform in which every spawned process
    behaves as [run] says on the document text it is given, paths are their
    own real paths, every resource has the settings [configuration], and
    [format] appends its arguments to the template.  The promise-based spawn
    resolves with the standard output on exit status 0 and rejects with an
    error that carries both outputs otherwise. *)
Definition env (run : string -> SpawnSyncReturns) (configuration : CheckerSettings) : Env :=
  mkEnv resources
    (fun value args => value +:+ String.concat ", " (map (default "undefined") args))
    whiteSpace
    (fun path => Ok path)
    "/home/user"
    "linux"
    filePathOf
    (fun _ => "/")
    (fun root rest => root +:+ rest)
    (fun s => s)
    (fun _ _ options => Ok (run (input options)))
    (fun _ _ options =>
       let output := run (input options) in
       if decide (status output = Some 0)
       then Ok (default "" (stdout output))
       else Raise (mkJSError KError (Some "Exited with status") (stdout output) (stderr output)))
    parse
    (fun _ => Ok configuration).

Definition document_php : TextDocument :=
  mkTextDocument "file:///abs/path.php"
    ("<?php" +:+ String "010" ("" +:+ String "010" ("" +:+ String "010" ("" +:+ String "010"
     "    drupal_set_message(1);")))).

(** A second document, at another path. *)
Definition document_other : TextDocument :=
  mkTextDocument "file:///abs/other.php" ("<?php" +:+ String "010" "drupal_render($x);").

Definition document_empty : TextDocument := mkTextDocument "file:///abs/path.php" "".

(** A process that ends with exit status [code], having written [out] and
    [err]. *)
Definition exits (code : Z) (out err : string) : string -> SpawnSyncReturns :=
  fun _ => mkSpawnSyncReturns (Some code) (Some out) (Some err).

(** Nonzero exit with a report of one message on standard output. *)
Definition env_one : Env := env (exits 1 report_one "") Server.defaultSettings.

(** Nonzero exit with a report of two messages, the second on line 9. *)
Definition env_two : Env := env (exits 1 report_two "") Server.defaultSettings.

(** A report whose [files] member is [true]. *)
Definition env_files_true : Env := env (exits 0 report_files_true "") Server.defaultSettings.

(** Nonzero exit, nothing on standard output, a message on standard error. *)
Definition env_stderr : Env :=
  env (exits 1 "" "PHP Fatal error: out of memory") Server.defaultSettings.

(** Settings without an executable path. *)
Definition settings_no_executable : CheckerSettings := mkCheckerSettings true None None 1000.

Definition settings_disabled : CheckerSettings :=
  mkCheckerSettings false (Some "/usr/local/bin/drupal-check") None 1000.

(** The server right after start, for a client without scoped configuration. *)
Definition state_initial (settings : CheckerSettings) : Server.ServerState :=
  Server.mkServerState false settings ∅ ∅ [].

(** The server of a client with scoped configuration and a cached entry for
    [document_php]. *)
Definition state_cached (settings : CheckerSettings) : Server.ServerState :=
  Server.mkServerState true Server.defaultSettings
    {[ uri document_php := Ok settings ]} ∅ [].

End Example.

(** ** Vocabulary of the statements *)

(** The character of [s] at [j] is classified as whitespace. *)
Definition whitespaceAt (E : Env) (s : string) (j : nat) : bool :=
  isWhiteSpace E (charCodeAt s j).

(** The diagnostic sets that a run has published, in order. *)
Fixpoint published (evs : list Event) : list (string * option (list Diagnostic)) :=
  match evs with
  | [] => []
  | SendDiagnostics target diagnostics :: rest => (target, diagnostics) :: published rest
  | _ :: rest => published rest
  end.

(** The number of processes that a run has started. *)
Fixpoint spawned (evs : list Event) : nat :=
  match evs with
  | [] => O
  | SpawnSync _ _ _ :: rest => S (spawned rest)
  | Spawn _ _ _ :: rest => S (spawned rest)
  | _ :: rest => spawned rest
  end.

(** The environment [E] with another behaviour of the spawned process. *)
Definition withSpawnSync (E : Env)
    (run : string -> list (option string) -> SpawnOptions -> Result SpawnSyncReturns) : Env :=
  mkEnv (SR E) (format E) (isWhiteSpace E) (realpathSync E) (homeDirectory E) (platform E)
    (uriToFilePath E) (path_parse_root E) (path_join E) (toUpperCase E)
    run (spawn E) (JSON_parse E) (getConfiguration E).

(** The lines of a document, as [createDiagnostic] splits them. *)
Definition linesOf (document : TextDocument) : list string :=
  split "010" (getText document).

(** The 1-based line number [l] names a line of the document. *)
Definition lineInRange (document : TextDocument) (l : Z) : Prop :=
  1 <= l <= Z.of_nat (length (linesOf document)).

(** The messages list that the parsed report [data] holds for the file
    [fileRealPath]: the claim's "entry of the real path in the report". *)
Definition reportMessages (data : JSValue) (fileRealPath : string) : option (list JSValue) :=
  match data with
  | JSObject properties =>
      match assoc "files" properties with
      | JSObject files =>
          match assoc fileRealPath files with
          | JSObject fileEntry =>
              match assoc "messages" fileEntry with
              | JSArray elements => Some elements
              | _ => None
              end
          | _ => None
          end
      | _ => None
      end
  | _ => None
  end.

(** The [try] block of [validateSingle]: create the checker, then check. *)
Definition validationAttempt (E : Env) (document : TextDocument) (settings : CheckerSettings)
  : Logged (option (list Diagnostic)) :=
  lbind (pure (DrupalCheck.create E (executablePath settings)))
    (fun drupalcheck => DrupalCheck.check E drupalcheck document settings).

(** What [validateSingle] sends around the [try] block. *)
Definition startEvents (E : Env) (document : TextDocument) : list Event :=
  [SendNotification "textDocument/didStartValidate" (uri document);
   TracerLog (format E (DidStartValidateTextDocument (SR E)) [Some (uri document)])].

Definition endEvents (E : Env) (document : TextDocument) : list Event :=
  [SendNotification (format E (DidEndValidateTextDocument (SR E)) []) (uri document);
   TracerLog (format E (DidEndValidateTextDocument (SR E)) [Some (uri document)])].

(** The diagnostic of a [null] entry and of an entry without text. *)
Definition emptyDiagnostic : Diagnostic :=
  Diagnostic_create (Range_create 0 0 0 0) "" SevInformation "drupalchecker".

(** ** The remaining handlers of the server *)

(** The handlers below start a validation and do not wait for it; the
    completion given here is that of the promise they start. *)
Module Handlers.
Section WithEnv.

Variable E : Env.

(** [documents.onDidOpen] *)
Definition onDidOpen (document : TextDocument) : Server.Server unit :=
  Server.validateSingle E document.

(** [documents.onDidChangeContent] *)
Definition onDidChangeContent (document : TextDocument) : Server.Server unit :=
  Server.validateSingle E document.

(** [documents.onDidSave] *)
Definition onDidSave (document : TextDocument) : Server.Server unit :=
  Server.validateSingle E document.

(** [connection.onDidChangeWatchedFiles]; [open_documents] is
    [documents.all()]. *)
Definition onDidChangeWatchedFiles (open_documents : list TextDocument)
  : Server.Server unit :=
  Server.validateMany E open_documents.

End WithEnv.
End Handlers.

(** ** Further vocabulary and examples *)

(** The text [s] holds the character [c]. *)
Definition occurs (c : ascii) (s : string) : Prop := In c (list_ascii_of_string s).

(** Every entry of the settings cache is the configuration that the editor
    answers for its resource. *)
Definition cacheFresh (E : Env) (st : Server.ServerState) : Prop :=
  forall resource promise,
    Server.documentSettings st !! resource = Some promise ->
    promise = getConfiguration E resource.

(** What a run of the server has sent, given the state before and after. *)
Definition sentBetween (st st' : Server.ServerState) : list Event :=
  drop (length (Server.trace st)) (Server.trace st').

(** The environment [E] with another configuration of the editor. *)
Definition withConfiguration (E : Env) (configuration : string -> Result CheckerSettings)
  : Env :=
  mkEnv (SR E) (format E) (isWhiteSpace E) (realpathSync E) (homeDirectory E) (platform E)
    (uriToFilePath E) (path_parse_root E) (path_join E) (toUpperCase E)
    (spawnSync E) (spawn E) (JSON_parse E) configuration.

Module MoreExamples.

(** Nonzero exit with a standard output that is not JSON. *)
Definition env_garbage : Env :=
  Example.env (Example.exits 1 "PHP Warning: not a report" "") Server.defaultSettings.

(** Exit status 0 with a standard output that is not JSON. *)
Definition env_garbage_ok : Env :=
  Example.env (Example.exits 0 "PHP Warning: not a report" "") Server.defaultSettings.

(** An editor whose configuration request is rejected. *)
Definition env_rejecting : Env :=
  withConfiguration Example.env_one (fun _ => Raise (newError "configuration unavailable")).

(** The server of a client with scoped configuration and an empty cache. *)
Definition state_scoped : Server.ServerState :=
  Server.mkServerState true Server.defaultSettings ∅ ∅ [].

(** A document whose URI is not a file. *)
Definition document_untitled : TextDocument :=
  mkTextDocument "untitled:Untitled-1" "<?php drupal_render($x);".

(** [{"files":{}}]: a report without any file. *)
Definition report_no_files : string :=
  "{" +:+ Example.quote +:+ "files" +:+ Example.quote +:+ ":{}}".

(** The environment [E] with another [JSON.parse]. *)
Definition withParse (E : Env) (parse : string -> option JSValue) : Env :=
  mkEnv (SR E) (format E) (isWhiteSpace E) (realpathSync E) (homeDirectory E) (platform E)
    (uriToFilePath E) (path_parse_root E) (path_join E) (toUpperCase E)
    (spawnSync E) (spawn E) parse (getConfiguration E).

(** Exit status 0 with the report without any file. *)
Definition env_no_files : Env :=
  withParse (Example.env (Example.exits 0 report_no_files "") Server.defaultSettings)
    (fun text => if String.eqb text report_no_files
                 then Some (JSObject [("files", JSObject [])])
                 else None).

End MoreExamples.

(** * Properties *)

(** ** The start column *)

Section StartCharacter.

Variable E : Env.

(** The loop ends by its own condition: any two supplies of fuel that cover
    the remaining indices give the same result. *)
Lemma startCharacter_loop_fuel (s : string) (len : nat) :
  forall fuel fuel' i start,
    (len <= i + fuel)%nat -> (len <= i + fuel')%nat ->
    startCharacter_loop E fuel s len i start = startCharacter_loop E fuel' s len i start.
Proof.
  induction fuel as [|fuel IH]; intros fuel' i start Hf Hf'.
  - destruct fuel' as [|fuel']; [reflexivity|].
    simpl. destruct (Nat.ltb_spec i len); [lia | reflexivity].
  - destruct fuel' as [|fuel'].
    + simpl. destruct (Nat.ltb_spec i len); [lia | reflexivity].
    + simpl. destruct (Nat.ltb_spec i len); [|reflexivity].
      destruct (isWhiteSpace E (charCodeAt s i)); simpl; [|reflexivity].
      apply IH; lia.
Qed.

(** The invariant of the loop: on entry at [i] the variable holds [i - 1] and
    every character before [i] is whitespace. *)
Lemma startCharacter_loop_spec (s : string) (len : nat) :
  forall fuel i,
    (1 <= i <= len)%nat -> (len <= i + fuel)%nat ->
    (forall j, (j < i)%nat -> whitespaceAt E s j = true) ->
    let r := startCharacter_loop E fuel s len i (i - 1) in
    (r < len)%nat /\
    (forall j, (j < r)%nat -> whitespaceAt E s j = true) /\
    (whitespaceAt E s r = false \/
     (r = (len - 1)%nat /\ forall j, (j < len)%nat -> whitespaceAt E s j = true)).
Proof.
  induction fuel as [|fuel IH]; intros i Hi Hfuel Hws; simpl.
  - assert (i = len) by lia. subst i.
    repeat split; [lia | intros; apply Hws; lia | right; split; [reflexivity | exact Hws]].
  - destruct (Nat.ltb_spec i len) as [Hlt | Hge].
    + destruct (isWhiteSpace E (charCodeAt s i)) eqn:Hc; simpl.
      * specialize (IH (i + 1)%nat).
        replace (i + 1 - 1)%nat with i in IH by lia.
        apply IH; [lia | lia |].
        intros j Hj. destruct (decide (j = i)) as [-> | Hne]; [exact Hc | apply Hws; lia].
      * repeat split; [lia | exact Hws | left; exact Hc].
    + assert (i = len) by lia. subst i.
      repeat split; [lia | intros; apply Hws; lia | right; split; [reflexivity | exact Hws]].
Qed.

Lemma string_length_pos (s : string) : s <> "" -> (1 <= String.length s)%nat.
Proof. destruct s; [congruence | simpl; lia]. Qed.

End StartCharacter.

(** C2 (as amended): on a non-empty line the start column [i] lies inside the
    line, every character before [i] is whitespace, and either the character
    at [i] is not whitespace or the line is entirely whitespace and [i] is
    the index of its last character, [length - 1]. *)
Theorem startCharacter_first_non_whitespace (E : Env) (lineString : string) :
  lineString <> "" ->
  (startCharacter E lineString < String.length lineString)%nat /\
  (forall j, (j < startCharacter E lineString)%nat -> whitespaceAt E lineString j = true) /\
  (whitespaceAt E lineString (startCharacter E lineString) = false \/
   (startCharacter E lineString = (String.length lineString - 1)%nat /\
    forall j, (j < String.length lineString)%nat -> whitespaceAt E lineString j = true)).
Proof.
  intros Hne. pose proof (string_length_pos lineString Hne) as Hlen.
  unfold startCharacter.
  destruct (isWhiteSpace E (charCodeAt lineString 0)) eqn:H0.
  - change (0 + 1)%nat with 1%nat.
    change 0%nat with (1 - 1)%nat at 1 3 5.
    apply (startCharacter_loop_spec E lineString (String.length lineString)
             (String.length lineString) 1%nat); [lia | lia |].
    intros j Hj. assert (j = 0%nat) as -> by lia. exact H0.
  - repeat split; [lia | intros j Hj; lia | left; exact H0].
Qed.

(** C2, witness: the line ["    drupal_set_message(1);"] starts at column 4. *)
Lemma startCharacter_first_non_whitespace_witness :
  "    drupal_set_message(1);" <> "" /\
  (startCharacter Example.env_one "    drupal_set_message(1);"
   < String.length "    drupal_set_message(1);")%nat /\
  (forall j, (j < startCharacter Example.env_one "    drupal_set_message(1);")%nat ->
             whitespaceAt Example.env_one "    drupal_set_message(1);" j = true) /\
  (whitespaceAt Example.env_one "    drupal_set_message(1);"
     (startCharacter Example.env_one "    drupal_set_message(1);") = false \/
   (startCharacter Example.env_one "    drupal_set_message(1);"
    = (String.length "    drupal_set_message(1);" - 1)%nat /\
    forall j, (j < String.length "    drupal_set_message(1);")%nat ->
              whitespaceAt Example.env_one "    drupal_set_message(1);" j = true)).
Proof.
  split; [discriminate |].
  apply (startCharacter_first_non_whitespace Example.env_one "    drupal_set_message(1);").
  discriminate.
Defined.

(** C2 (as stated) fails on a line that is one space: the start column is 0,
    which is not the length of the line, and the character at 0 is
    whitespace. *)
Lemma startCharacter_blank_line_counterexample :
  " " <> "" /\
  ~ (startCharacter Example.env_one " " = String.length " " \/
     (whitespaceAt Example.env_one " " (startCharacter Example.env_one " ") = false /\
      forall j, (j < startCharacter Example.env_one " ")%nat ->
                whitespaceAt Example.env_one " " j = true)).
Proof.
  split; [discriminate |].
  intros [H | [H _]]; vm_compute in H; discriminate.
Qed.

(** ** One message to one diagnostic *)

Section CreateDiagnostic.

Variable E : Env.
Variable document : TextDocument.

Lemma index_in_range (l : Z) :
  lineInRange document l ->
  exists lineString, index (linesOf document) (l - 1) = Some lineString.
Proof.
  unfold lineInRange, index. intros [Hlo Hhi].
  destruct (Z.leb_spec 0 (l - 1)) as [_ | Hneg]; [| lia].
  apply lookup_lt_is_Some. lia.
Qed.

Lemma index_out_of_range (l : Z) :
  ~ lineInRange document l -> index (linesOf document) (l - 1) = None.
Proof.
  unfold lineInRange, index. intros Hout.
  destruct (Z.leb_spec 0 (l - 1)) as [Hpos | Hneg]; [| reflexivity].
  apply lookup_ge_None. lia.
Qed.

(** The only exception of [createDiagnostic] is the [TypeError] of a missing
    line, and it never leaves the typed fragment. *)
Lemma createDiagnostic_outcome (entry : option DrupalCheckMessage) :
  (exists d, createDiagnostic E document entry = Normal d) \/
  createDiagnostic E document entry =
    Throw (typeError "Cannot read property 'length' of undefined").
Proof.
  destruct entry as [e |]; simpl; [| eauto].
  destruct (String.eqb (message e) ""); [eauto |].
  destruct (index _ _); eauto.
Qed.

Lemma createDiagnostic_throws (e : DrupalCheckMessage) :
  message e <> "" -> ~ lineInRange document (line e) ->
  createDiagnostic E document (Some e) =
    Throw (typeError "Cannot read property 'length' of undefined").
Proof.
  intros Hmsg Hout. simpl.
  apply String.eqb_neq in Hmsg. rewrite Hmsg.
  fold (linesOf document). rewrite (index_out_of_range _ Hout). reflexivity.
Qed.

Lemma createDiagnostic_in_range (e : DrupalCheckMessage) (lineString : string) :
  message e <> "" ->
  index (linesOf document) (line e - 1) = Some lineString ->
  createDiagnostic E document (Some e)
  = Normal (Diagnostic_create
              (Range_create (line e - 1) (Z.of_nat (startCharacter E lineString))
                            (line e - 1) (Z.of_nat (String.length lineString)))
              (message e) SevError "drupalchecker").
Proof.
  intros Hmsg Hl. simpl.
  apply String.eqb_neq in Hmsg. rewrite Hmsg.
  fold (linesOf document). rewrite Hl. reflexivity.
Qed.

(** Reading the elements first and translating them afterwards is the same
    traversal. *)
Lemma mapC_asMessage (elements : list JSValue) (entries : list (option DrupalCheckMessage)) :
  mapC asMessage elements = Normal entries ->
  mapC (fun m => cbind (asMessage m) (createDiagnostic E document)) elements
  = mapC (createDiagnostic E document) entries.
Proof.
  revert entries. induction elements as [| v vs IH]; intros entries H; simpl in *.
  - inversion H. reflexivity.
  - destruct (asMessage v) as [entry | |]; simpl in H; try discriminate.
    destruct (mapC asMessage vs) as [rest | |]; simpl in H; try discriminate.
    inversion H; subst. simpl. rewrite (IH rest eq_refl). reflexivity.
Qed.

(** One failing entry fails the traversal. *)
Lemma mapC_createDiagnostic_throws (entries : list (option DrupalCheckMessage))
    (entry : option DrupalCheckMessage) :
  entry ∈ entries ->
  createDiagnostic E document entry
    = Throw (typeError "Cannot read property 'length' of undefined") ->
  mapC (createDiagnostic E document) entries
    = Throw (typeError "Cannot read property 'length' of undefined").
Proof.
  intros Hin Hthrow. induction Hin as [x rest | x y rest Hin IH].
  - simpl. rewrite Hthrow. reflexivity.
  - simpl. destruct (createDiagnostic_outcome y) as [[d ->] | ->]; simpl.
    + rewrite (IH Hthrow). reflexivity.
    + reflexivity.
Qed.

(** A traversal that succeeds yields one diagnostic per entry, in order. *)
Lemma mapC_createDiagnostic_normal (entries : list (option DrupalCheckMessage))
    (diagnostics : list Diagnostic) :
  mapC (createDiagnostic E document) entries = Normal diagnostics ->
  Forall2 (fun entry d => createDiagnostic E document entry = Normal d) entries diagnostics.
Proof.
  revert diagnostics. induction entries as [| x rest IH]; intros diagnostics H; simpl in H.
  - inversion H. constructor.
  - destruct (createDiagnostic E document x) as [d | |] eqn:Hx; simpl in H; try discriminate.
    destruct (mapC (createDiagnostic E document) rest) as [ds | |]; simpl in H;
      try discriminate.
    inversion H; subst. constructor; [exact Hx | apply IH; reflexivity].
Qed.

Lemma mapC_asMessage_length (elements : list JSValue)
    (entries : list (option DrupalCheckMessage)) :
  mapC asMessage elements = Normal entries -> length entries = length elements.
Proof.
  revert entries. induction elements as [| v vs IH]; intros entries H; simpl in H.
  - inversion H. reflexivity.
  - destruct (asMessage v) as [entry | |]; simpl in H; try discriminate.
    destruct (mapC asMessage vs) as [rest | |]; simpl in H; try discriminate.
    inversion H; subst. simpl. rewrite (IH rest eq_refl). reflexivity.
Qed.

End CreateDiagnostic.

(** C9: a [null] entry and an entry whose text is empty give the diagnostic
    [emptyDiagnostic] (range 0:0-0:0, empty text, severity Information); for
    any other entry every diagnostic returned has severity Error and source
    ['drupalchecker'], and one is returned, spanning the line from its start
    column to its end, whenever the line is a line of the document. *)
Theorem createDiagnostic_severity (E : Env) (document : TextDocument)
    (entry : option DrupalCheckMessage) :
  ((entry = None \/ exists e, entry = Some e /\ message e = "") ->
   createDiagnostic E document entry = Normal emptyDiagnostic /\
   diag_range emptyDiagnostic = Range_create 0 0 0 0 /\
   diag_severity emptyDiagnostic = SevInformation) /\
  (forall e, entry = Some e -> message e <> "" ->
     (forall d, createDiagnostic E document entry = Normal d ->
        diag_severity d = SevError /\ diag_source d = "drupalchecker") /\
     (lineInRange document (line e) ->
        exists lineString,
          index (linesOf document) (line e - 1) = Some lineString /\
          createDiagnostic E document entry =
            Normal (Diagnostic_create
                      (Range_create (line e - 1) (Z.of_nat (startCharacter E lineString))
                                    (line e - 1) (Z.of_nat (String.length lineString)))
                      (message e) SevError "drupalchecker"))).
Proof.
  split.
  - intros [-> | (e & -> & Hmsg)]; simpl; [easy |].
    rewrite Hmsg. easy.
  - intros e -> Hmsg. apply String.eqb_neq in Hmsg. split.
    + intros d. simpl. rewrite Hmsg.
      destruct (index _ _); [| discriminate].
      intros H; inversion H; subst. simpl. easy.
    + intros Hin. destruct (index_in_range document _ Hin) as [lineString Hl].
      exists lineString. split; [exact Hl |].
      apply createDiagnostic_in_range; [| exact Hl].
      apply String.eqb_neq. exact Hmsg.
Qed.

(** C9, witness: the one message of the sample report, on line 5 of the
    sample document, and a [null] entry. *)
Lemma createDiagnostic_severity_witness :
  createDiagnostic Example.env_one Example.document_php None = Normal emptyDiagnostic /\
  createDiagnostic Example.env_one Example.document_php
    (Some (mkDrupalCheckMessage 5 "Deprecated call"))
  = Normal (Diagnostic_create (Range_create 4 4 4 26) "Deprecated call" SevError
              "drupalchecker").
Proof.
  split.
  - apply (createDiagnostic_severity Example.env_one Example.document_php None).
    left. reflexivity.
  - destruct (createDiagnostic_severity Example.env_one Example.document_php
                (Some (mkDrupalCheckMessage 5 "Deprecated call"))) as [_ H].
    destruct (H _ eq_refl) as [_ Hr]; [discriminate |].
    destruct Hr as (lineString & Hl & Hd); [unfold lineInRange; vm_compute; split; discriminate |].
    vm_compute in Hl. inversion Hl; subst. exact Hd.
Defined.

(** ** The message batch *)

Section ProcessResults.

Variable E : Env.
Variable document : TextDocument.

Lemma mapC_translate_normal (elements : list JSValue) (diagnostics : list Diagnostic) :
  mapC (fun m => cbind (asMessage m) (createDiagnostic E document)) elements
    = Normal diagnostics ->
  exists entries,
    mapC asMessage elements = Normal entries /\
    mapC (createDiagnostic E document) entries = Normal diagnostics.
Proof.
  revert diagnostics. induction elements as [| v vs IH]; intros diagnostics H; simpl in H.
  - inversion H. exists []. split; reflexivity.
  - destruct (asMessage v) as [entry | |] eqn:Hv; simpl in H; try discriminate.
    destruct (createDiagnostic E document entry) as [d | |] eqn:Hd; simpl in H;
      try discriminate.
    destruct (mapC _ vs) as [ds | |] eqn:Hvs; simpl in H; try discriminate.
    inversion H; subst. destruct (IH ds eq_refl) as (rest & Hrest & Hds).
    exists (entry :: rest). simpl. rewrite Hv, Hrest, Hd, Hds. split; reflexivity.
Qed.

Lemma asMessage_not_throw (v : JSValue) (e : JSError) : asMessage v <> Throw e.
Proof.
  destruct v as [| | | | | | properties]; simpl; try discriminate.
  destruct (assoc "line" properties); try discriminate.
  destruct (assoc "message" properties); discriminate.
Qed.

(** The only exception of the traversal is the [TypeError] of a missing
    line. *)
Lemma mapC_translate_throw (elements : list JSValue) (e : JSError) :
  mapC (fun m => cbind (asMessage m) (createDiagnostic E document)) elements = Throw e ->
  e = typeError "Cannot read property 'length' of undefined".
Proof.
  induction elements as [| v vs IH]; intros H; simpl in H; [discriminate |].
  destruct (asMessage v) as [entry | e0 |] eqn:Hv; simpl in H; try discriminate;
    [| destruct (asMessage_not_throw v e0 Hv)].
  destruct (createDiagnostic_outcome E document entry) as [[d Hd] | Hd];
    rewrite Hd in H; simpl in H.
  - destruct (mapC _ vs) as [ds | |]; simpl in H; try discriminate.
    apply IH. exact H.
  - inversion H. reflexivity.
Qed.

(** [processResults] on a report that holds a messages list for the file. *)
Lemma processResults_entry (filePath fileRealPath results : string) (data : JSValue)
    (elements : list JSValue) :
  JSON_parse E results = Some data ->
  realpathSync E filePath = Ok fileRealPath ->
  reportMessages data fileRealPath = Some elements ->
  processResults E (Some filePath) document results
  = mapC (fun m => cbind (asMessage m) (createDiagnostic E document)) elements.
Proof.
  intros Hparse Hreal Hreport. unfold processResults, parseData.
  rewrite Hparse. simpl. rewrite Hreal. simpl.
  unfold reportMessages in Hreport.
  destruct data as [| | | | | | properties]; try discriminate. simpl.
  destruct (assoc "files" properties) as [| | | | | | files]; try discriminate. simpl.
  destruct (assoc fileRealPath files) as [| | | | | | fileEntry]; try discriminate. simpl.
  destruct (assoc "messages" fileEntry) as [| | | | | elements' |]; try discriminate.
  inversion Hreport; subst. reflexivity.
Qed.

End ProcessResults.

(** C5 (as amended): there is no bounds check.  For a message whose line is
    not a line of the document [createDiagnostic] raises a [TypeError], and
    that error ends the translation of the whole batch: no diagnostic of the
    batch is returned. *)
Theorem createDiagnostic_out_of_range_aborts (E : Env) (document : TextDocument)
    (elements : list JSValue) (entries : list (option DrupalCheckMessage))
    (e : DrupalCheckMessage) :
  mapC asMessage elements = Normal entries ->
  Some e ∈ entries ->
  message e <> "" ->
  ~ lineInRange document (line e) ->
  createDiagnostic E document (Some e)
    = Throw (typeError "Cannot read property 'length' of undefined") /\
  mapMessages E document (JSArray elements)
    = Throw (typeError "Cannot read property 'length' of undefined").
Proof.
  intros Hread Hin Hmsg Hout.
  pose proof (createDiagnostic_throws E document e Hmsg Hout) as Hthrow.
  split; [exact Hthrow |].
  simpl. rewrite (mapC_asMessage E document elements entries Hread).
  exact (mapC_createDiagnostic_throws E document entries (Some e) Hin Hthrow).
Qed.

(** C5, witness: the two messages of the second sample report against the
    five lines of the sample document. *)
Lemma createDiagnostic_out_of_range_aborts_witness :
  mapMessages Example.env_two Example.document_php
    (JSArray [JSObject [("line", JSNumber 1); ("message", JSString "first")];
              JSObject [("line", JSNumber 9); ("message", JSString "second")]])
  = Throw (typeError "Cannot read property 'length' of undefined").
Proof.
  apply (createDiagnostic_out_of_range_aborts Example.env_two Example.document_php
           [JSObject [("line", JSNumber 1); ("message", JSString "first")];
            JSObject [("line", JSNumber 9); ("message", JSString "second")]]
           [Some (mkDrupalCheckMessage 1 "first"); Some (mkDrupalCheckMessage 9 "second")]
           (mkDrupalCheckMessage 9 "second")).
  - reflexivity.
  - apply list_elem_of_In. simpl. right. left. reflexivity.
  - discriminate.
  - unfold lineInRange. vm_compute. intros [_ H]. apply H. reflexivity.
Defined.

(** C5 (as stated) fails: the first message of the report is on line 1 and
    has a diagnostic of its own, the second is on line 9 of a document of
    five lines; [processResults] throws and [check] returns no diagnostic at
    all. *)
Lemma processResults_out_of_range_counterexample :
  createDiagnostic Example.env_two Example.document_php
    (Some (mkDrupalCheckMessage 1 "first"))
  = Normal (Diagnostic_create (Range_create 0 0 0 5) "first" SevError "drupalchecker") /\
  processResults Example.env_two (Some "/abs/path.php") Example.document_php
    Example.report_two
  = Throw (typeError "Cannot read property 'length' of undefined") /\
  snd (DrupalCheck.check Example.env_two (DrupalCheck.new "/usr/local/bin/drupal-check")
         Example.document_php Server.defaultSettings)
  = Normal None.
Proof. repeat split; vm_compute; reflexivity. Qed.

(** C4 (as amended): a text that is not well-formed JSON makes [parseData],
    and with it [processResults], fail with the invalid-JSON error, and no
    structure is returned; well-formed JSON is returned as parsed, its shape
    is not examined. *)
Theorem parseData_invalid_json (E : Env) (text : string) :
  (JSON_parse E text = None ->
   parseData E text = Throw (newError (InvalidJsonStringError (SR E))) /\
   forall filePath document,
     processResults E filePath document text
     = Throw (newError (InvalidJsonStringError (SR E)))) /\
  (forall data, JSON_parse E text = Some data -> parseData E text = Normal data).
Proof.
  split.
  - intros H. unfold processResults, parseData. rewrite H. split; reflexivity.
  - intros data H. unfold parseData. rewrite H. reflexivity.
Qed.

(** C4, witness: a text that is not JSON. *)
Lemma parseData_invalid_json_witness :
  parseData Example.env_one "PHP Warning: not a report"
  = Throw (newError (InvalidJsonStringError (SR Example.env_one))).
Proof.
  apply (parseData_invalid_json Example.env_one "PHP Warning: not a report").
  reflexivity.
Defined.

(** C4 (as stated) fails: the text [{"files":true}] is well-formed JSON that
    is not a mapping of file paths to message lists, and [processResults]
    returns the empty list for it. *)
Lemma processResults_shape_mismatch_counterexample :
  JSON_parse Example.env_files_true Example.report_files_true
  = Some (JSObject [("files", JSBool true)]) /\
  reportMessages (JSObject [("files", JSBool true)]) "/abs/path.php" = None /\
  processResults Example.env_files_true (Some "/abs/path.php") Example.document_php
    Example.report_files_true
  = Normal [].
Proof. repeat split; vm_compute; reflexivity. Qed.

(** ** [check] *)

Section Check.

Variable E : Env.

Lemma eqb_empty_false (s : string) : s <> "" -> String.eqb s "" = false.
Proof. intros H. apply String.eqb_neq. exact H. Qed.

(** [check] of [server/src/checker.ts] when the process has written [out]:
    the exit status and the standard error of [output] are not looked at. *)
Lemma check_stdout (this : DrupalCheck.t) (document : TextDocument)
    (settings : CheckerSettings) (output : SpawnSyncReturns) (out : string) :
  getText document <> "" ->
  spawnSync E (DrupalCheck.this_executablePath this) (lintArgs (lintPath E document))
    (lintOptions settings (getText document)) = Ok output ->
  stdout output = Some out -> out <> "" ->
  DrupalCheck.check E this document settings
  = ltryCatch
      ([SpawnSync (DrupalCheck.this_executablePath this) (lintArgs (lintPath E document))
          (lintOptions settings (getText document));
        ConsoleInfo "Success!"],
       cbind (processResults E (lintPath E document) document out)
         (fun ds => Normal (Some ds)))
      (fun error =>
         if truthyString (err_stdout error) then
           (emit (ConsoleError "Issues found.") ;;
            returnResults E (lintPath E document) document
              (default "" (err_stdout error)))%logged
         else if truthyString (err_stderr error) then
           (emit (ConsoleError "Error could not continue.") ;;
            emit (ConsoleError (default "" (err_stderr error))) ;;
            lret None)%logged
         else lret None).
Proof.
  intros Htext Hspawn Hout Hne. unfold DrupalCheck.check.
  rewrite (eqb_empty_false _ Htext), Hspawn. cbn -[processResults].
  rewrite Hout. cbn -[processResults].
  rewrite (eqb_empty_false _ Hne). cbn -[processResults].
  destruct (processResults _ _ _ _); reflexivity.
Qed.

(** [check] of [server/src/checker.ts] when the process has written nothing
    on standard output: the "Missing output" error is caught by the [catch]
    block of [check] itself, which has nothing to do for it. *)
Lemma check_no_stdout (this : DrupalCheck.t) (document : TextDocument)
    (settings : CheckerSettings) (output : SpawnSyncReturns) :
  getText document <> "" ->
  spawnSync E (DrupalCheck.this_executablePath this) (lintArgs (lintPath E document))
    (lintOptions settings (getText document)) = Ok output ->
  truthyString (stdout output) = false ->
  DrupalCheck.check E this document settings
  = ([SpawnSync (DrupalCheck.this_executablePath this) (lintArgs (lintPath E document))
        (lintOptions settings (getText document));
      ConsoleInfo "Success!"],
     Normal None).
Proof.
  intros Htext Hspawn Hout. unfold DrupalCheck.check.
  rewrite (eqb_empty_false _ Htext), Hspawn. cbn -[processResults].
  rewrite Hout. reflexivity.
Qed.

End Check.

(** An entry that [createDiagnostic] can translate. *)
Lemma mapC_createDiagnostic_total (E : Env) (document : TextDocument)
    (entries : list (option DrupalCheckMessage)) :
  Forall (fun entry => match entry with
                       | Some e => message e = "" \/ lineInRange document (line e)
                       | None => True
                       end) entries ->
  exists diagnostics, mapC (createDiagnostic E document) entries = Normal diagnostics.
Proof.
  induction 1 as [| entry rest Hentry _ [ds IH]]; [exists []; reflexivity |].
  assert (exists d, createDiagnostic E document entry = Normal d) as [d Hd].
  { destruct entry as [e |]; [| simpl; eauto].
    destruct (decide (message e = "")) as [Hm | Hm].
    - simpl. rewrite Hm. simpl. eauto.
    - destruct Hentry as [Hm' | Hin]; [contradiction |].
      destruct (index_in_range document _ Hin) as [lineString Hl].
      rewrite (createDiagnostic_in_range E document e lineString Hm Hl). eauto. }
  exists (d :: ds). simpl. rewrite Hd. simpl. rewrite IH. reflexivity.
Qed.

(** C10: [check] never reads [maxNumberOfProblems]; when the report that the
    process has written holds a messages list for the real path of the
    document, every list of diagnostics that [check] returns has one
    diagnostic per message, in the order of the messages, each the
    translation of its message; and [check] does return such a list when
    every message can be translated. *)
Theorem check_one_diagnostic_per_message (E : Env) (this : DrupalCheck.t)
    (document : TextDocument) (settings : CheckerSettings) :
  (forall n,
     DrupalCheck.check E this document
       (mkCheckerSettings (enable settings) (executablePath settings)
          (workspaceRoot settings) n)
     = DrupalCheck.check E this document settings) /\
  (forall output out data filePath fileRealPath elements,
     getText document <> "" ->
     spawnSync E (DrupalCheck.this_executablePath this) (lintArgs (lintPath E document))
       (lintOptions settings (getText document)) = Ok output ->
     stdout output = Some out -> out <> "" ->
     JSON_parse E out = Some data ->
     lintPath E document = Some filePath ->
     realpathSync E filePath = Ok fileRealPath ->
     reportMessages data fileRealPath = Some elements ->
     (forall events diagnostics,
        DrupalCheck.check E this document settings = (events, Normal (Some diagnostics)) ->
        length diagnostics = length elements /\
        exists entries,
          mapC asMessage elements = Normal entries /\
          Forall2 (fun entry d => createDiagnostic E document entry = Normal d)
            entries diagnostics) /\
     (forall entries,
        mapC asMessage elements = Normal entries ->
        Forall (fun entry => match entry with
                             | Some e => message e = "" \/ lineInRange document (line e)
                             | None => True
                             end) entries ->
        exists diagnostics,
          snd (DrupalCheck.check E this document settings) = Normal (Some diagnostics) /\
          length diagnostics = length elements)).
Proof.
  split; [intros n; reflexivity |].
  intros output out data filePath fileRealPath elements
    Htext Hspawn Hout Hne Hparse Hpath Hreal Hreport.
  rewrite (check_stdout E this document settings output out Htext Hspawn Hout Hne).
  rewrite Hpath.
  rewrite (processResults_entry E document filePath fileRealPath out data elements
             Hparse Hreal Hreport).
  split.
  - intros events diagnostics Hcheck.
    destruct (mapC _ elements) as [ds | e |] eqn:Hmap; simpl in Hcheck.
    + inversion Hcheck; subst.
      destruct (mapC_translate_normal E document elements diagnostics Hmap)
        as (entries & Hread & Htranslate).
      pose proof (mapC_createDiagnostic_normal E document entries diagnostics Htranslate)
        as Hall.
      split.
      * rewrite <- (Forall2_length _ _ _ Hall).
        exact (mapC_asMessage_length elements entries Hread).
      * exists entries. split; assumption.
    + rewrite (mapC_translate_throw E document elements e Hmap) in Hcheck.
      simpl in Hcheck. inversion Hcheck.
    + inversion Hcheck.
  - intros entries Hread Hall.
    destruct (mapC_createDiagnostic_total E document entries Hall) as [ds Hds].
    exists ds. rewrite (mapC_asMessage E document elements entries Hread), Hds. simpl.
    split; [reflexivity |].
    rewrite <- (Forall2_length _ _ _ (mapC_createDiagnostic_normal E document _ _ Hds)).
    exact (mapC_asMessage_length elements entries Hread).
Qed.

(** C10, witness: the sample report of one message for the sample document. *)
Lemma check_one_diagnostic_per_message_witness :
  exists diagnostics,
    snd (DrupalCheck.check Example.env_one (DrupalCheck.new "/usr/local/bin/drupal-check")
           Example.document_php Server.defaultSettings)
    = Normal (Some diagnostics) /\
    length diagnostics
    = length [JSObject [("line", JSNumber 5); ("message", JSString "Deprecated call")]].
Proof.
  destruct (check_one_diagnostic_per_message Example.env_one
              (DrupalCheck.new "/usr/local/bin/drupal-check")
              Example.document_php Server.defaultSettings) as [_ H].
  destruct (H (Example.exits 1 Example.report_one "" (getText Example.document_php))
              Example.report_one Example.report_one_value
              "/abs/path.php" "/abs/path.php"
              [JSObject [("line", JSNumber 5); ("message", JSString "Deprecated call")]])
    as [_ Hreturns]; [discriminate | reflexivity | reflexivity | discriminate
                      | reflexivity | reflexivity | reflexivity | reflexivity |].
  apply (Hreturns [Some (mkDrupalCheckMessage 5 "Deprecated call")]); [reflexivity |].
  constructor; [| constructor].
  right. unfold lineInRange. vm_compute. split; discriminate.
Defined.

(** C6: a nonzero exit status is not a failure.  In [server/src/checker.ts]
    the result of [check] depends on the standard output of the process
    only, not on its exit status or standard error, and diagnostics that
    [processResults] computes from a non-empty standard output are returned;
    in the promise-based variant the standard output carried by the
    rejection of a nonzero exit yields the same diagnostics as the standard
    output of a normal exit. *)
Theorem nonzero_exit_with_stdout_is_output (E : Env) (document : TextDocument)
    (settings : CheckerSettings) (out : string) :
  (forall this status1 status2 err1 err2,
     DrupalCheck.check
       (withSpawnSync E (fun _ _ _ => Ok (mkSpawnSyncReturns status1 (Some out) err1)))
       this document settings
     = DrupalCheck.check
         (withSpawnSync E (fun _ _ _ => Ok (mkSpawnSyncReturns status2 (Some out) err2)))
         this document settings) /\
  (forall this output diagnostics,
     getText document <> "" ->
     spawnSync E (DrupalCheck.this_executablePath this) (lintArgs (lintPath E document))
       (lintOptions settings (getText document)) = Ok output ->
     stdout output = Some out -> out <> "" ->
     processResults E (lintPath E document) document out = Normal diagnostics ->
     DrupalCheck.check E this document settings
     = ([SpawnSync (DrupalCheck.this_executablePath this) (lintArgs (lintPath E document))
           (lintOptions settings (getText document));
         ConsoleInfo "Success!"],
        Normal (Some diagnostics))) /\
  (forall this diagnostics,
     getText document <> "" -> out <> "" ->
     processResults E (lintPath E document) document out = Normal diagnostics ->
     (spawn E (DrupalCheckPromise.this_executablePath this) (lintArgs (lintPath E document))
        (lintOptions settings (getText document)) = Ok out ->
      snd (DrupalCheckPromise.check E this document settings) = Normal (Some diagnostics)) /\
     (forall error,
        spawn E (DrupalCheckPromise.this_executablePath this)
          (lintArgs (lintPath E document))
          (lintOptions settings (getText document)) = Raise error ->
        err_stdout error = Some out ->
        snd (DrupalCheckPromise.check E this document settings)
        = Normal (Some diagnostics))).
Proof.
  split; [| split].
  - intros this status1 status2 err1 err2. reflexivity.
  - intros this output diagnostics Htext Hspawn Hout Hne Hresults.
    rewrite (check_stdout E this document settings output out Htext Hspawn Hout Hne).
    rewrite Hresults. reflexivity.
  - intros this diagnostics Htext Hne Hresults. split.
    + intros Hspawn. unfold DrupalCheckPromise.check.
      rewrite (eqb_empty_false _ Htext), Hspawn. cbn -[processResults].
      rewrite Hresults. reflexivity.
    + intros error Hspawn Herr. unfold DrupalCheckPromise.check.
      rewrite (eqb_empty_false _ Htext), Hspawn. cbn -[processResults].
      rewrite Herr. cbn -[processResults].
      rewrite (eqb_empty_false _ Hne). cbn -[processResults].
      rewrite Hresults. reflexivity.
Qed.

(** C6, witness: exit status 1 with the sample report on standard output. *)
Lemma nonzero_exit_with_stdout_is_output_witness :
  DrupalCheck.check Example.env_one (DrupalCheck.new "/usr/local/bin/drupal-check")
    Example.document_php Server.defaultSettings
  = ([SpawnSync "/usr/local/bin/drupal-check"
        (lintArgs (lintPath Example.env_one Example.document_php))
        (lintOptions Server.defaultSettings (getText Example.document_php));
      ConsoleInfo "Success!"],
     Normal (Some [Diagnostic_create (Range_create 4 4 4 26) "Deprecated call" SevError
                     "drupalchecker"])).
Proof.
  destruct (nonzero_exit_with_stdout_is_output Example.env_one Example.document_php
              Server.defaultSettings Example.report_one) as (_ & H & _).
  apply (H (DrupalCheck.new "/usr/local/bin/drupal-check")
           (Example.exits 1 Example.report_one "" (getText Example.document_php))).
  - discriminate.
  - reflexivity.
  - reflexivity.
  - discriminate.
  - vm_compute. reflexivity.
Defined.

(** C3, at the failing input (exit status 1, nothing on standard output, a
    message on standard error): [check] raises nothing and returns
    [undefined], the message of standard error appears in no event, and
    [validateSingle] publishes [undefined] for the URI and ends normally;
    the promise-based variant logs the message and returns [undefined] as
    well. *)
Theorem check_stderr_only_returns_undefined :
  DrupalCheck.check Example.env_stderr (DrupalCheck.new "/usr/local/bin/drupal-check")
    Example.document_php Server.defaultSettings
  = ([SpawnSync "/usr/local/bin/drupal-check"
        (lintArgs (Some "/abs/path.php"))
        (lintOptions Server.defaultSettings (getText Example.document_php));
      ConsoleInfo "Success!"],
     Normal None) /\
  published (Server.trace (fst (Server.validateSingle Example.env_stderr
                                  Example.document_php
                                  (Example.state_initial Server.defaultSettings))))
  = [("file:///abs/path.php", None)] /\
  snd (Server.validateSingle Example.env_stderr Example.document_php
         (Example.state_initial Server.defaultSettings))
  = Normal tt /\
  DrupalCheckPromise.check Example.env_stderr
    (DrupalCheckPromise.new (Some "/usr/local/bin/drupal-check"))
    Example.document_php Server.defaultSettings
  = ([Spawn (Some "/usr/local/bin/drupal-check")
        (lintArgs (Some "/abs/path.php"))
        (lintOptions Server.defaultSettings (getText Example.document_php));
      ConsoleError "Issues found.";
      ConsoleError "PHP Fatal error: out of memory"],
     Normal None).
Proof. repeat split; vm_compute; reflexivity. Qed.

(** ** The server *)

Section ServerFacts.

Variable E : Env.

Lemma published_app (evs evs' : list Event) :
  published (evs ++ evs') = (published evs ++ published evs')%list.
Proof.
  induction evs as [| ev evs IH]; [reflexivity |].
  destruct ev; simpl; rewrite ?IH; reflexivity.
Qed.

Lemma spawned_app (evs evs' : list Event) :
  spawned (evs ++ evs') = (spawned evs + spawned evs')%nat.
Proof.
  induction evs as [| ev evs IH]; [reflexivity |].
  destruct ev; simpl; rewrite ?IH; reflexivity.
Qed.

(** Looking up the settings sends nothing. *)
Lemma getDocumentSettings_trace (resource : string) (st : Server.ServerState) :
  Server.trace (fst (Server.getDocumentSettings E resource st)) = Server.trace st.
Proof.
  unfold Server.getDocumentSettings.
  destruct (Server.hasConfigurationCapability st); simpl; [| reflexivity].
  destruct (Server.documentSettings st !! resource); reflexivity.
Qed.

(** [check] publishes nothing itself. *)
Lemma check_published (this : DrupalCheck.t) (document : TextDocument)
    (settings : CheckerSettings) :
  published (fst (DrupalCheck.check E this document settings)) = [].
Proof.
  unfold DrupalCheck.check.
  destruct (String.eqb (getText document) ""); [reflexivity |].
  destruct (spawnSync E _ _ _) as [output | error]; cbn -[processResults];
    repeat (try reflexivity;
            match goal with
            | |- context [truthyString ?x] => destruct (truthyString x)
            | |- context [processResults ?a ?b ?c ?d] => destruct (processResults a b c d)
            end; cbn -[processResults]);
    reflexivity.
Qed.

Lemma validationAttempt_published (document : TextDocument) (settings : CheckerSettings) :
  published (fst (validationAttempt E document settings)) = [].
Proof.
  unfold validationAttempt, pure, lbind.
  destruct (DrupalCheck.create E (executablePath settings)) as [this | e |];
    try reflexivity.
  pose proof (check_published this document settings) as H.
  destruct (DrupalCheck.check E this document settings) as [evs r]. exact H.
Qed.

(** The enabled branch of [validateSingle], in one equation: the events
    around the [try] block, the single publication, and the completion. *)
Lemma validateSingle_enabled (document : TextDocument) (st st1 : Server.ServerState)
    (settings : CheckerSettings) :
  Server.getDocumentSettings E (uri document) st = (st1, Normal (Ok settings)) ->
  enable settings = true ->
  Server.validateSingle E document st
  = (Server.mkServerState
       (Server.hasConfigurationCapability st1) (Server.globalSettings st1)
       (Server.documentSettings st1)
       (delete (uri document) (<[uri document := document]> (Server.validating st1)))
       (Server.trace st ++ startEvents E document
          ++ fst (validationAttempt E document settings)
          ++ endEvents E document
          ++ [SendDiagnostics (uri document)
                match snd (validationAttempt E document settings) with
                | Normal diagnostics => diagnostics
                | _ => Some []
                end])%list,
     match snd (validationAttempt E document settings) with
     | Normal _ => Normal tt
     | Throw error => Throw (newError (Server.getExceptionMessage E error document))
     | IllTyped => IllTyped
     end).
Proof.
  intros Hget Henable.
  pose proof (getDocumentSettings_trace (uri document) st) as Htrace.
  rewrite Hget in Htrace. simpl in Htrace. rewrite <- Htrace.
  unfold Server.validateSingle, Server.sbind at 1. rewrite Hget.
  unfold Server.sbind at 1. cbn [Server.await ofResult]. rewrite Henable.
  unfold Server.sbind at 1.
  unfold validationAttempt, pure, lbind, startEvents, endEvents.
  cbn -[DrupalCheck.check DrupalCheck.create app].
  destruct (DrupalCheck.create E (executablePath settings)) as [this | e |];
    cbn -[DrupalCheck.check DrupalCheck.create app].
  - destruct (DrupalCheck.check E this document settings) as [evs [ds | e |]];
      cbn -[DrupalCheck.check DrupalCheck.create app];
      unfold Server.sret, Server.sthrow, Server.sillTyped;
      repeat rewrite <- app_assoc; reflexivity.
  - unfold Server.sthrow. repeat rewrite <- app_assoc. reflexivity.
  - unfold Server.sillTyped. repeat rewrite <- app_assoc. reflexivity.
Qed.

(** The disabled branch of [validateSingle]. *)
Lemma validateSingle_not_enabled (document : TextDocument) (st st1 : Server.ServerState)
    (settings : CheckerSettings) :
  Server.getDocumentSettings E (uri document) st = (st1, Normal (Ok settings)) ->
  enable settings = false ->
  Server.validateSingle E document st
  = (Server.mkServerState
       (Server.hasConfigurationCapability st1) (Server.globalSettings st1)
       (delete (uri document) (Server.documentSettings st1))
       (Server.validating st1)
       (Server.trace st ++ [SendDiagnostics (uri document) (Some [])])%list,
     Normal tt).
Proof.
  intros Hget Henable.
  pose proof (getDocumentSettings_trace (uri document) st) as Htrace.
  rewrite Hget in Htrace. simpl in Htrace. rewrite <- Htrace.
  unfold Server.validateSingle, Server.sbind at 1. rewrite Hget.
  unfold Server.sbind at 1. cbn [Server.await ofResult]. rewrite Henable.
  reflexivity.
Qed.

(** [validateMany] runs the documents in order and ends at the first
    document whose validation does not complete normally. *)
Lemma validateMany_app (before after : list TextDocument) (st : Server.ServerState) :
  Server.validateMany E (before ++ after) st
  = match Server.validateMany E before st with
    | (st1, Normal _) => Server.validateMany E after st1
    | (st1, Throw e) => (st1, Throw e)
    | (st1, IllTyped) => (st1, IllTyped)
    end.
Proof.
  revert st. induction before as [| document rest IH]; intros st; [reflexivity |].
  simpl. unfold Server.sbind.
  destruct (Server.validateSingle E document st) as [st1 [[] | e |]]; [apply IH | | ];
    reflexivity.
Qed.

End ServerFacts.

(** Dropping the entry of [resource] after the lookup leaves the cache as it
    was before the lookup, without that entry. *)
Lemma getDocumentSettings_delete (E : Env) (resource : string) (st : Server.ServerState) :
  delete resource (Server.documentSettings (fst (Server.getDocumentSettings E resource st)))
  = delete resource (Server.documentSettings st).
Proof.
  unfold Server.getDocumentSettings.
  destruct (Server.hasConfigurationCapability st); simpl; [| reflexivity].
  destruct (Server.documentSettings st !! resource); simpl; [reflexivity |].
  apply delete_insert_eq.
Qed.

(** C8: with the checker disabled, [validateSingle] ends normally, sends one
    thing only, the empty diagnostic set for the URI of the document, starts
    no process, and leaves the settings cache without an entry for the URI
    (the other entries are those of the cache before the call). *)
Theorem validateSingle_disabled_publishes_empty (E : Env) (document : TextDocument)
    (st st1 : Server.ServerState) (settings : CheckerSettings) :
  Server.getDocumentSettings E (uri document) st = (st1, Normal (Ok settings)) ->
  enable settings = false ->
  snd (Server.validateSingle E document st) = Normal tt /\
  (exists evs,
     Server.trace (fst (Server.validateSingle E document st)) = (Server.trace st ++ evs)%list /\
     evs = [SendDiagnostics (uri document) (Some [])] /\
     spawned evs = 0%nat) /\
  Server.documentSettings (fst (Server.validateSingle E document st)) !! uri document = None /\
  Server.documentSettings (fst (Server.validateSingle E document st))
  = delete (uri document) (Server.documentSettings st) /\
  Server.validating (fst (Server.validateSingle E document st)) = Server.validating st1.
Proof.
  intros Hget Henable.
  rewrite (validateSingle_not_enabled E document st st1 settings Hget Henable). simpl.
  pose proof (getDocumentSettings_delete E (uri document) st) as Hdel.
  rewrite Hget in Hdel. simpl in Hdel.
  repeat split.
  - exists [SendDiagnostics (uri document) (Some [])]. repeat split.
  - apply lookup_delete_eq.
  - exact Hdel.
Qed.

(** C8, witness: a client with scoped configuration whose cached settings
    for the sample document have the checker disabled. *)
Lemma validateSingle_disabled_publishes_empty_witness :
  Server.trace (fst (Server.validateSingle Example.env_one Example.document_php
                       (Example.state_cached Example.settings_disabled)))
  = [SendDiagnostics "file:///abs/path.php" (Some [])] /\
  Server.documentSettings (fst (Server.validateSingle Example.env_one Example.document_php
                                  (Example.state_cached Example.settings_disabled)))
    !! "file:///abs/path.php" = None.
Proof.
  destruct (validateSingle_disabled_publishes_empty Example.env_one Example.document_php
              (Example.state_cached Example.settings_disabled)
              (Example.state_cached Example.settings_disabled)
              Example.settings_disabled)
    as (_ & (evs & Htrace & Hevs & _) & Hnone & _).
  - unfold Server.getDocumentSettings, Example.state_cached. simpl.
    rewrite lookup_singleton_eq. reflexivity.
  - reflexivity.
  - split; [rewrite Htrace, Hevs; reflexivity | exact Hnone].
Defined.

(** C7: for a document whose text is empty [check] returns the empty list
    and starts no process; [validateSingle], once the settings of the
    document are resolved, publishes exactly one diagnostic set for the URI,
    the empty one, and starts no process. *)
Theorem validateSingle_empty_document (E : Env) (document : TextDocument) :
  getText document = "" ->
  (forall this settings,
     DrupalCheck.check E this document settings = ([], Normal (Some []))) /\
  (forall st st1 settings,
     Server.getDocumentSettings E (uri document) st = (st1, Normal (Ok settings)) ->
     exists evs,
       Server.trace (fst (Server.validateSingle E document st))
       = (Server.trace st ++ evs)%list /\
       published evs = [(uri document, Some [])] /\
       spawned evs = 0%nat).
Proof.
  intros Htext.
  assert (forall this settings,
            DrupalCheck.check E this document settings = ([], Normal (Some [])))
    as Hcheck.
  { intros this settings. unfold DrupalCheck.check. rewrite Htext. reflexivity. }
  split; [exact Hcheck |].
  intros st st1 settings Hget.
  destruct (enable settings) eqn:Henable.
  - rewrite (validateSingle_enabled E document st st1 settings Hget Henable). simpl.
    eexists. split; [reflexivity |].
    unfold validationAttempt, pure, lbind.
    destruct (DrupalCheck.create E (executablePath settings)) as [this | e |];
      [rewrite (Hcheck this settings) | |]; split; reflexivity.
  - rewrite (validateSingle_not_enabled E document st st1 settings Hget Henable). simpl.
    eexists. split; [reflexivity |]. split; reflexivity.
Qed.

(** C7, witness: the empty document under the default settings. *)
Lemma validateSingle_empty_document_witness :
  DrupalCheck.check Example.env_one (DrupalCheck.new "/usr/local/bin/drupal-check")
    Example.document_empty Server.defaultSettings
  = ([], Normal (Some [])) /\
  exists evs,
    Server.trace (fst (Server.validateSingle Example.env_one Example.document_empty
                         (Example.state_initial Server.defaultSettings)))
    = (Server.trace (Example.state_initial Server.defaultSettings) ++ evs)%list /\
    published evs = [(uri Example.document_empty, Some [])] /\
    spawned evs = 0%nat.
Proof.
  destruct (validateSingle_empty_document Example.env_one Example.document_empty eq_refl)
    as [Hcheck Hsingle].
  split; [apply Hcheck |].
  apply (Hsingle (Example.state_initial Server.defaultSettings)
           (Example.state_initial Server.defaultSettings) Server.defaultSettings).
  reflexivity.
Defined.

(** C1 (as amended): in a validation cycle whose settings resolve with the
    checker enabled exactly one diagnostic set is published for the URI of
    the document, after the notification of the end of the validation,
    whether or not the cycle fails; whenever [validateSingle] throws, and in
    particular when the creation of the checker fails, that set is the empty
    one.  [validateMany] validates the documents in order and stops at the
    first document whose validation throws: the error is the result of the
    batch and the documents after it are not validated. *)
Theorem validation_failure_publishes_empty_and_stops (E : Env) :
  (forall document st st1 settings,
     Server.getDocumentSettings E (uri document) st = (st1, Normal (Ok settings)) ->
     enable settings = true ->
     exists evs diagnostics,
       Server.trace (fst (Server.validateSingle E document st))
       = (Server.trace st ++ startEvents E document ++ evs ++ endEvents E document
            ++ [SendDiagnostics (uri document) diagnostics])%list /\
       published evs = [] /\
       (forall e, snd (Server.validateSingle E document st) = Throw e ->
                  diagnostics = Some []) /\
       (forall e, DrupalCheck.create E (executablePath settings) = Throw e ->
                  diagnostics = Some [] /\
                  snd (Server.validateSingle E document st)
                  = Throw (newError (Server.getExceptionMessage E e document))) /\
       (executablePath settings = None ->
        exists e, DrupalCheck.create E (executablePath settings) = Throw e)) /\
  (forall before document after st st1 st2 e,
     Server.validateMany E before st = (st1, Normal tt) ->
     Server.validateSingle E document st1 = (st2, Throw e) ->
     Server.validateMany E (before ++ document :: after) st = (st2, Throw e)).
Proof.
  split.
  - intros document st st1 settings Hget Henable.
    rewrite (validateSingle_enabled E document st st1 settings Hget Henable). simpl.
    pose proof (validationAttempt_published E document settings) as Hpub.
    exists (fst (validationAttempt E document settings)). eexists.
    split; [reflexivity |]. split; [exact Hpub |].
    split; [| split].
    + intros e. destruct (snd (validationAttempt E document settings));
        [discriminate | reflexivity | discriminate].
    + intros e Hcreate. unfold validationAttempt, pure, lbind. rewrite Hcreate.
      split; reflexivity.
    + intros Hnone. rewrite Hnone. simpl. eauto.
  - intros before document after st st1 st2 e Hbefore Hsingle.
    rewrite validateMany_app, Hbefore. simpl. unfold Server.sbind.
    rewrite Hsingle. reflexivity.
Qed.

(** C1, witness: the default settings without an executable path; the
    validation of the sample document publishes the empty set and throws,
    and a batch that starts with it ends there. *)
Lemma validation_failure_publishes_empty_and_stops_witness :
  (exists evs diagnostics,
     Server.trace (fst (Server.validateSingle Example.env_one Example.document_php
                          (Example.state_initial Example.settings_no_executable)))
     = (startEvents Example.env_one Example.document_php ++ evs
          ++ endEvents Example.env_one Example.document_php
          ++ [SendDiagnostics "file:///abs/path.php" diagnostics])%list /\
     diagnostics = Some []) /\
  exists st2 e,
    Server.validateMany Example.env_one ([] ++ Example.document_php :: [Example.document_other])
      (Example.state_initial Example.settings_no_executable)
    = (st2, Throw e).
Proof.
  destruct (validation_failure_publishes_empty_and_stops Example.env_one) as [Hsingle Hmany].
  split.
  - destruct (Hsingle Example.document_php
                (Example.state_initial Example.settings_no_executable)
                (Example.state_initial Example.settings_no_executable)
                Example.settings_no_executable eq_refl eq_refl)
      as (evs & diagnostics & Htrace & _ & _ & Hthrow & Hcreate).
    destruct (Hcreate eq_refl) as [e He].
    exists evs, diagnostics. split; [exact Htrace |].
    apply (Hthrow e He).
  - eexists. eexists.
    apply (Hmany [] Example.document_php [Example.document_other]
             (Example.state_initial Example.settings_no_executable)
             (Example.state_initial Example.settings_no_executable)).
    + reflexivity.
    + vm_compute. reflexivity.
Defined.

(** C1 (as stated) fails: under settings without an executable path the
    creation of the checker fails for the first document of a batch of two;
    the batch ends with that error, and nothing is published, and no
    validation is started, for the second document. *)
Lemma validateMany_stops_at_failure_counterexample :
  published
    (Server.trace
       (fst (Server.validateMany Example.env_one
               [Example.document_php; Example.document_other]
               (Example.state_initial Example.settings_no_executable))))
  = [("file:///abs/path.php", Some [])] /\
  ~ In (SendNotification "textDocument/didStartValidate" "file:///abs/other.php")
      (Server.trace
         (fst (Server.validateMany Example.env_one
                 [Example.document_php; Example.document_other]
                 (Example.state_initial Example.settings_no_executable)))) /\
  snd (Server.validateMany Example.env_one
         [Example.document_php; Example.document_other]
         (Example.state_initial Example.settings_no_executable))
  = Throw (newError
             (Server.getExceptionMessage Example.env_one
                (newError (format Example.env_one
                             (CreateCheckerError (SR Example.env_one))
                             [Some "Cannot read property 'startsWith' of null"]))
                Example.document_php)).
Proof.
  repeat split; try (vm_compute; reflexivity).
  vm_compute. intros H.
  repeat (destruct H as [H | H]; [discriminate H |]). exact H.
Qed.

(** * Further properties of the code *)

(** ** The settings cache *)

Section SettingsCache.

Variable E : Env.

(** The lookup itself never throws: a failure is inside the thenable. *)
Lemma getDocumentSettings_normal (resource : string) (st : Server.ServerState) :
  exists promise,
    snd (Server.getDocumentSettings E resource st) = Normal promise.
Proof.
  unfold Server.getDocumentSettings.
  destruct (Server.hasConfigurationCapability st); simpl; [| eauto].
  destruct (Server.documentSettings st !! resource); simpl; eauto.
Qed.

(** The lookup keeps the cache fresh. *)
Lemma getDocumentSettings_fresh (resource : string) (st : Server.ServerState) :
  cacheFresh E st -> cacheFresh E (fst (Server.getDocumentSettings E resource st)).
Proof.
  intros Hfresh. unfold Server.getDocumentSettings.
  destruct (Server.hasConfigurationCapability st); simpl; [| exact Hfresh].
  destruct (Server.documentSettings st !! resource) eqn:Hl; simpl; [exact Hfresh |].
  intros r p. simpl. rewrite lookup_insert.
  destruct (decide (resource = r)) as [-> | Hne]; [| apply Hfresh].
  intros H. inversion H. reflexivity.
Qed.

(** The lookup adds at most the entry of its resource. *)
Lemma getDocumentSettings_entries (resource other : string) (st : Server.ServerState) :
  is_Some (Server.documentSettings (fst (Server.getDocumentSettings E resource st)) !! other) ->
  is_Some (Server.documentSettings st !! other) \/ other = resource.
Proof.
  unfold Server.getDocumentSettings.
  destruct (Server.hasConfigurationCapability st); simpl; [| auto].
  destruct (Server.documentSettings st !! resource) eqn:Hl; simpl; [auto |].
  rewrite lookup_insert. destruct (decide (resource = other)); auto.
Qed.

(** [validateSingle] when the thenable of the settings is rejected. *)
Lemma validateSingle_rejected (document : TextDocument) (st st1 : Server.ServerState)
    (e : JSError) :
  Server.getDocumentSettings E (uri document) st = (st1, Normal (Raise e)) ->
  Server.validateSingle E document st = (st1, Throw e).
Proof.
  intros Hget. unfold Server.validateSingle, Server.sbind at 1. rewrite Hget.
  reflexivity.
Qed.

(** The three ways in which [validateSingle] goes on after the lookup. *)
Lemma validateSingle_cases (document : TextDocument) (st : Server.ServerState) :
  exists st1,
    st1 = fst (Server.getDocumentSettings E (uri document) st) /\
    ((exists settings,
        Server.getDocumentSettings E (uri document) st = (st1, Normal (Ok settings))) \/
     (exists e,
        Server.getDocumentSettings E (uri document) st = (st1, Normal (Raise e)))).
Proof.
  destruct (getDocumentSettings_normal (uri document) st) as [promise Hp].
  destruct (Server.getDocumentSettings E (uri document) st) as [st1 r] eqn:Hget.
  simpl in Hp. subst r. exists st1. split; [reflexivity |].
  destruct promise as [settings | e]; eauto.
Qed.

(** [validateSingle] keeps the cache fresh and adds at most the entry of its
    document, whatever its completion. *)
Lemma validateSingle_cache (document : TextDocument) (st : Server.ServerState) :
  (cacheFresh E st -> cacheFresh E (fst (Server.validateSingle E document st))) /\
  (forall other,
     is_Some (Server.documentSettings (fst (Server.validateSingle E document st)) !! other) ->
     is_Some (Server.documentSettings st !! other) \/ other = uri document).
Proof.
  pose proof (getDocumentSettings_fresh (uri document) st) as Hfresh.
  pose proof (getDocumentSettings_entries (uri document)) as Hentries.
  destruct (validateSingle_cases document st) as (st1 & Hst1 & [[settings Hget] | [e Hget]]).
  - destruct (enable settings) eqn:Henable.
    + rewrite (validateSingle_enabled E document st st1 settings Hget Henable).
      simpl. rewrite Hst1. split; [exact Hfresh | intros other; apply Hentries].
    + rewrite (validateSingle_not_enabled E document st st1 settings Hget Henable).
      simpl. rewrite Hst1. split.
      * intros H0 r p. simpl. rewrite lookup_delete.
        destruct (decide (uri document = r)); [discriminate |]. apply (Hfresh H0).
      * intros other. rewrite lookup_delete.
        destruct (decide (uri document = other)); [intros [x Hx]; discriminate |].
        apply Hentries.
  - rewrite (validateSingle_rejected document st st1 e Hget). simpl. rewrite Hst1.
    split; [exact Hfresh | intros other; apply Hentries].
Qed.

Lemma validateMany_cache (documents : list TextDocument) :
  forall st,
    (cacheFresh E st -> cacheFresh E (fst (Server.validateMany E documents st))) /\
    (forall other,
       is_Some (Server.documentSettings (fst (Server.validateMany E documents st)) !! other) ->
       is_Some (Server.documentSettings st !! other) \/ other ∈ map uri documents).
Proof.
  induction documents as [| document rest IH]; intros st.
  - simpl. split; [auto | auto].
  - simpl. unfold Server.sbind.
    destruct (validateSingle_cache document st) as [Hf He].
    destruct (Server.validateSingle E document st) as [st1 [[] | e |]]; simpl in *.
    + destruct (IH st1) as [Hf' He']. split; [auto |].
      intros other H. destruct (He' other H) as [H1 | H1].
      * destruct (He other H1) as [H2 | ->]; [auto | right; left].
      * right. right. exact H1.
    + split; [exact Hf |]. intros other H.
      destruct (He other H) as [H2 | ->]; [auto | right; left].
    + split; [exact Hf |]. intros other H.
      destruct (He other H) as [H2 | ->]; [auto | right; left].
Qed.

End SettingsCache.

Lemma getDocumentSettings_frame (E : Env) (resource : string) (st : Server.ServerState) :
  Server.hasConfigurationCapability (fst (Server.getDocumentSettings E resource st))
  = Server.hasConfigurationCapability st /\
  Server.globalSettings (fst (Server.getDocumentSettings E resource st))
  = Server.globalSettings st.
Proof.
  unfold Server.getDocumentSettings.
  destruct (Server.hasConfigurationCapability st) eqn:Hcap; simpl; [| auto].
  destruct (Server.documentSettings st !! resource); simpl; auto.
Qed.

Lemma validateSingle_frame (E : Env) (document : TextDocument) (st : Server.ServerState) :
  Server.hasConfigurationCapability (fst (Server.validateSingle E document st))
  = Server.hasConfigurationCapability st /\
  Server.globalSettings (fst (Server.validateSingle E document st))
  = Server.globalSettings st.
Proof.
  pose proof (getDocumentSettings_frame E (uri document) st) as Hframe.
  destruct (validateSingle_cases E document st) as (st1 & Hst1 & [[settings Hget] | [e Hget]]).
  - destruct (enable settings) eqn:Henable.
    + rewrite (validateSingle_enabled E document st st1 settings Hget Henable).
      simpl. rewrite Hst1. exact Hframe.
    + rewrite (validateSingle_not_enabled E document st st1 settings Hget Henable).
      simpl. rewrite Hst1. exact Hframe.
  - rewrite (validateSingle_rejected E document st st1 e Hget). simpl. rewrite Hst1.
    exact Hframe.
Qed.

Lemma validateMany_frame (E : Env) (documents : list TextDocument) :
  forall st,
    Server.hasConfigurationCapability (fst (Server.validateMany E documents st))
    = Server.hasConfigurationCapability st /\
    Server.globalSettings (fst (Server.validateMany E documents st))
    = Server.globalSettings st.
Proof.
  induction documents as [| document rest IH]; intros st; [simpl; auto |].
  simpl. unfold Server.sbind.
  destruct (validateSingle_frame E document st) as [Hc Hg].
  destruct (Server.validateSingle E document st) as [st1 [[] | e |]]; simpl in *; auto.
  destruct (IH st1) as [Hc' Hg']. rewrite Hc', Hg'. auto.
Qed.

Lemma getDocumentSettings_hit (E : Env) (resource : string) (st : Server.ServerState)
    (promise : Result CheckerSettings) :
  Server.hasConfigurationCapability st = true ->
  Server.documentSettings st !! resource = Some promise ->
  Server.getDocumentSettings E resource st = (st, Normal promise).
Proof.
  intros Hcap Hl. unfold Server.getDocumentSettings. rewrite Hcap, Hl. reflexivity.
Qed.

Lemma getDocumentSettings_miss (E : Env) (resource : string) (st : Server.ServerState) :
  Server.hasConfigurationCapability st = true ->
  Server.documentSettings st !! resource = None ->
  Server.getDocumentSettings E resource st
  = (Server.mkServerState true (Server.globalSettings st)
       (<[resource := getConfiguration E resource]> (Server.documentSettings st))
       (Server.validating st) (Server.trace st),
     Normal (getConfiguration E resource)).
Proof.
  intros Hcap Hl. unfold Server.getDocumentSettings. rewrite Hcap, Hl. simpl.
  unfold Server.sbind, Server.setDocumentSettings, Server.sret. rewrite Hcap.
  reflexivity.
Qed.

Lemma getDocumentSettings_global (E : Env) (resource : string) (st : Server.ServerState) :
  Server.hasConfigurationCapability st = false ->
  Server.getDocumentSettings E resource st = (st, Normal (Ok (Server.globalSettings st))).
Proof.
  intros Hcap. unfold Server.getDocumentSettings. rewrite Hcap. reflexivity.
Qed.

(** X1: [getDocumentSettings] caches: a second lookup of the same resource
    returns the same thenable and leaves the state as the first lookup left
    it, and for a client with scoped configuration the cache then holds that
    thenable under the resource. *)
Theorem getDocumentSettings_cached (E : Env) (resource : string) (st : Server.ServerState) :
  Server.getDocumentSettings E resource (fst (Server.getDocumentSettings E resource st))
  = Server.getDocumentSettings E resource st /\
  (Server.hasConfigurationCapability st = true ->
   exists promise,
     snd (Server.getDocumentSettings E resource st) = Normal promise /\
     Server.documentSettings (fst (Server.getDocumentSettings E resource st)) !! resource
     = Some promise /\
     (Server.documentSettings st !! resource = None ->
      promise = getConfiguration E resource)).
Proof.
  destruct (Server.hasConfigurationCapability st) eqn:Hcap.
  - destruct (Server.documentSettings st !! resource) as [promise |] eqn:Hl.
    + rewrite (getDocumentSettings_hit E resource st promise Hcap Hl). simpl.
      split; [apply getDocumentSettings_hit; assumption |].
      intros _. exists promise. repeat split; [exact Hl | discriminate].
    + rewrite (getDocumentSettings_miss E resource st Hcap Hl). simpl.
      split.
      * apply getDocumentSettings_hit; [reflexivity | apply lookup_insert_eq].
      * intros _. exists (getConfiguration E resource).
        repeat split. apply lookup_insert_eq.
  - rewrite (getDocumentSettings_global E resource st Hcap). simpl.
    split; [apply getDocumentSettings_global; assumption | discriminate].
Qed.

(** X1, witness: the first lookup for the sample document on an empty
    cache. *)
Lemma getDocumentSettings_cached_witness :
  exists promise,
    snd (Server.getDocumentSettings Example.env_one "file:///abs/path.php"
           MoreExamples.state_scoped) = Normal promise /\
    Server.documentSettings
      (fst (Server.getDocumentSettings Example.env_one "file:///abs/path.php"
              MoreExamples.state_scoped)) !! "file:///abs/path.php"
    = Some promise /\
    (Server.documentSettings MoreExamples.state_scoped !! "file:///abs/path.php" = None ->
     promise = getConfiguration Example.env_one "file:///abs/path.php").
Proof.
  apply (getDocumentSettings_cached Example.env_one "file:///abs/path.php"
           MoreExamples.state_scoped).
  reflexivity.
Defined.

(** X2: when the configuration request of a resource that is not cached is
    rejected, [validateSingle] throws that error and sends nothing, the
    rejection stays in the cache, and a second validation of the document
    fails in the same way without changing the state. *)
Theorem validateSingle_rejected_configuration (E : Env) (document : TextDocument)
    (st : Server.ServerState) (e : JSError) :
  Server.hasConfigurationCapability st = true ->
  Server.documentSettings st !! uri document = None ->
  getConfiguration E (uri document) = Raise e ->
  snd (Server.validateSingle E document st) = Throw e /\
  Server.trace (fst (Server.validateSingle E document st)) = Server.trace st /\
  Server.validating (fst (Server.validateSingle E document st)) = Server.validating st /\
  Server.documentSettings (fst (Server.validateSingle E document st)) !! uri document
  = Some (Raise e) /\
  Server.validateSingle E document (fst (Server.validateSingle E document st))
  = Server.validateSingle E document st.
Proof.
  intros Hcap Hl Hconf.
  assert (Server.getDocumentSettings E (uri document) st
          = (Server.mkServerState true (Server.globalSettings st)
               (<[uri document := Raise e]> (Server.documentSettings st))
               (Server.validating st) (Server.trace st),
             Normal (Raise e))) as Hget.
  { rewrite (getDocumentSettings_miss E (uri document) st Hcap Hl), Hconf.
    reflexivity. }
  rewrite (validateSingle_rejected E document st _ e Hget). simpl.
  repeat split; [apply lookup_insert_eq |].
  apply validateSingle_rejected.
  apply getDocumentSettings_hit; [reflexivity | apply lookup_insert_eq].
Qed.

(** X2, witness: an editor that rejects every configuration request. *)
Lemma validateSingle_rejected_configuration_witness :
  snd (Server.validateSingle MoreExamples.env_rejecting Example.document_php
         MoreExamples.state_scoped)
  = Throw (newError "configuration unavailable") /\
  Server.trace (fst (Server.validateSingle MoreExamples.env_rejecting Example.document_php
                       MoreExamples.state_scoped))
  = Server.trace MoreExamples.state_scoped.
Proof.
  destruct (validateSingle_rejected_configuration MoreExamples.env_rejecting
              Example.document_php MoreExamples.state_scoped
              (newError "configuration unavailable"))
    as (Hthrow & Htrace & _); try reflexivity.
  split; [exact Hthrow | exact Htrace].
Defined.

(** X3: after a document is closed its settings are fetched again: for a
    client with scoped configuration the lookup that follows [onDidClose]
    returns the configuration of the editor, not a cached thenable; closing
    sends nothing and leaves the entries of other resources alone. *)
Theorem onDidClose_refetch (E : Env) (document : TextDocument) (st : Server.ServerState) :
  Server.hasConfigurationCapability st = true ->
  snd (Server.getDocumentSettings E (uri document)
         (fst (Server.onDidClose document st)))
  = Normal (getConfiguration E (uri document)) /\
  Server.trace (fst (Server.onDidClose document st)) = Server.trace st /\
  (forall other, other <> uri document ->
     Server.documentSettings (fst (Server.onDidClose document st)) !! other
     = Server.documentSettings st !! other).
Proof.
  intros Hcap. unfold Server.onDidClose, Server.setDocumentSettings. simpl.
  repeat split.
  - unfold Server.getDocumentSettings. simpl. rewrite Hcap. simpl.
    rewrite lookup_delete_eq. reflexivity.
  - intros other Hne. apply lookup_delete_ne. congruence.
Qed.

(** X3, witness: closing the sample document whose disabled settings are
    cached. *)
Lemma onDidClose_refetch_witness :
  snd (Server.getDocumentSettings Example.env_one (uri Example.document_php)
         (fst (Server.onDidClose Example.document_php
                 (Example.state_cached Example.settings_disabled))))
  = Normal (Ok Server.defaultSettings).
Proof.
  apply (onDidClose_refetch Example.env_one Example.document_php
           (Example.state_cached Example.settings_disabled)).
  reflexivity.
Defined.

(** X4: after a configuration change on a client with scoped configuration
    the cache holds no stale settings: every entry is the configuration that
    the editor answers for its resource, and only open documents have an
    entry, whether or not the revalidation of the batch completes. *)
Theorem onDidChangeConfiguration_cache (E : Env) (drupalCheck : option CheckerSettings)
    (open_documents : list TextDocument) (st : Server.ServerState) :
  Server.hasConfigurationCapability st = true ->
  cacheFresh E (fst (Server.onDidChangeConfiguration E drupalCheck open_documents st)) /\
  (forall resource,
     is_Some (Server.documentSettings
                (fst (Server.onDidChangeConfiguration E drupalCheck open_documents st))
              !! resource) ->
     resource ∈ map uri open_documents).
Proof.
  intros Hcap. unfold Server.onDidChangeConfiguration, Server.sbind. rewrite Hcap.
  simpl.
  match goal with
  | |- context [Server.validateMany E open_documents ?s] =>
      destruct (validateMany_cache E open_documents s) as [Hfresh Hentries]
  end.
  split.
  - apply Hfresh. intros r p. simpl. rewrite lookup_empty. discriminate.
  - intros resource H. destruct (Hentries resource H) as [Hold | Hin]; [| exact Hin].
    simpl in Hold. rewrite lookup_empty in Hold. destruct Hold as [x Hx]. discriminate.
Qed.

(** X4, witness: a stale entry for the sample document is gone after the
    change; the entry that the revalidation caches is the configuration of
    the editor. *)
Lemma onDidChangeConfiguration_cache_witness :
  cacheFresh Example.env_one
    (fst (Server.onDidChangeConfiguration Example.env_one None [Example.document_php]
            (Example.state_cached Example.settings_disabled))).
Proof.
  apply (onDidChangeConfiguration_cache Example.env_one None [Example.document_php]
           (Example.state_cached Example.settings_disabled)).
  reflexivity.
Defined.

Lemma validateSingle_cache_global (E : Env) (document : TextDocument)
    (st : Server.ServerState) :
  Server.hasConfigurationCapability st = false ->
  forall resource,
    is_Some (Server.documentSettings (fst (Server.validateSingle E document st)) !! resource) ->
    is_Some (Server.documentSettings st !! resource).
Proof.
  intros Hcap resource.
  pose proof (getDocumentSettings_global E (uri document) st Hcap) as Hget.
  destruct (enable (Server.globalSettings st)) eqn:Henable.
  - rewrite (validateSingle_enabled E document st st _ Hget Henable). simpl. auto.
  - rewrite (validateSingle_not_enabled E document st st _ Hget Henable). simpl.
    rewrite lookup_delete. destruct (decide (uri document = resource)); [| auto].
    intros [x Hx]. discriminate.
Qed.

Lemma validateMany_cache_global (E : Env) (documents : list TextDocument) :
  forall st,
    Server.hasConfigurationCapability st = false ->
    forall resource,
      is_Some (Server.documentSettings (fst (Server.validateMany E documents st))
               !! resource) ->
      is_Some (Server.documentSettings st !! resource).
Proof.
  induction documents as [| document rest IH]; intros st Hcap resource; [simpl; auto |].
  simpl. unfold Server.sbind.
  pose proof (validateSingle_cache_global E document st Hcap resource) as Hone.
  destruct (validateSingle_frame E document st) as [Hc _].
  destruct (Server.validateSingle E document st) as [st1 [[] | e |]]; simpl in *; auto.
  intros H. apply Hone. apply (IH st1); [congruence | exact H].
Qed.

(** X5: for a client without scoped configuration a configuration change
    replaces the global settings by the settings sent, or by the defaults
    when none are sent; the revalidation that follows does not change them
    again, every later lookup resolves to them, and no entry is added to the
    cache. *)
Theorem onDidChangeConfiguration_global (E : Env) (drupalCheck : option CheckerSettings)
    (open_documents : list TextDocument) (st : Server.ServerState) :
  Server.hasConfigurationCapability st = false ->
  Server.globalSettings
    (fst (Server.onDidChangeConfiguration E drupalCheck open_documents st))
  = default Server.defaultSettings drupalCheck /\
  (forall resource,
     snd (Server.getDocumentSettings E resource
            (fst (Server.onDidChangeConfiguration E drupalCheck open_documents st)))
     = Normal (Ok (default Server.defaultSettings drupalCheck))) /\
  (forall resource,
     is_Some (Server.documentSettings
                (fst (Server.onDidChangeConfiguration E drupalCheck open_documents st))
              !! resource) ->
     is_Some (Server.documentSettings st !! resource)).
Proof.
  intros Hcap. unfold Server.onDidChangeConfiguration, Server.sbind. rewrite Hcap.
  simpl. rewrite ?Hcap.
  match goal with
  | |- context [Server.validateMany E open_documents ?s] =>
      destruct (validateMany_frame E open_documents s) as [Hc Hg];
      pose proof (validateMany_cache_global E open_documents s eq_refl) as Hentries
  end.
  simpl in Hc, Hg.
  split; [exact Hg |]. split.
  - intros resource. rewrite getDocumentSettings_global by exact Hc. simpl.
    rewrite Hg. reflexivity.
  - exact Hentries.
Qed.

(** X5, witness: a change without settings on the server whose global
    settings had the checker disabled. *)
Lemma onDidChangeConfiguration_global_witness :
  Server.globalSettings
    (fst (Server.onDidChangeConfiguration Example.env_one None [Example.document_php]
            (Example.state_initial Example.settings_disabled)))
  = Server.defaultSettings.
Proof.
  apply (onDidChangeConfiguration_global Example.env_one None [Example.document_php]
           (Example.state_initial Example.settings_disabled)).
  reflexivity.
Defined.

(** ** Creating the checker *)

Lemma getSubstitution_plain (matched before after replacement : string) :
  ~ occurs "$" replacement ->
  getSubstitution matched before after replacement = replacement.
Proof.
  unfold occurs. induction replacement as [| c r IH]; intros Hno; [reflexivity |].
  simpl in *. destruct (Ascii.eqb_spec c "$") as [-> | Hne].
  - exfalso. apply Hno. left. reflexivity.
  - rewrite IH; [reflexivity |]. intros H. apply Hno. right. exact H.
Qed.

(** X6: [create] of [server/src/checker.ts] expands a leading [~/] to the
    home directory when the home directory holds no [$]: the path of the
    checker is the home directory followed by the rest of the setting, from
    its [/] on; a setting that does not start with [~/] is kept as it is. *)
Theorem create_expands_home (E : Env) (rest : string) :
  ~ occurs "$" (homeDirectory E) ->
  DrupalCheck.create E (Some ("~/" +:+ rest))
  = Normal (DrupalCheck.new (homeDirectory E +:+ "/" +:+ rest)) /\
  (forall executablePath,
     startsWith executablePath "~/" = false ->
     DrupalCheck.create E (Some executablePath) = Normal (DrupalCheck.new executablePath)).
Proof.
  intros Hno. split.
  - change ("~/" +:+ rest) with (String "~" (String "/" rest)).
    assert (startsWith (String "~" (String "/" rest)) "~/" = true) as Hprefix
      by (unfold startsWith; destruct rest; reflexivity).
    unfold DrupalCheck.create. cbn -[startsWith replace]. rewrite Hprefix.
    unfold replace. simpl.
    rewrite (getSubstitution_plain _ _ _ _ Hno). reflexivity.
  - intros executablePath Hprefix. unfold DrupalCheck.create.
    cbn -[startsWith replace]. rewrite Hprefix. reflexivity.
Qed.

(** X6, witness: [~/bin/drupal-check] under the home directory
    [/home/user]. *)
Lemma create_expands_home_witness :
  DrupalCheck.create Example.env_one (Some "~/bin/drupal-check")
  = Normal (DrupalCheck.new "/home/user/bin/drupal-check").
Proof.
  apply (create_expands_home Example.env_one "bin/drupal-check").
  unfold occurs. simpl. intros H.
  repeat (destruct H as [H | H]; [discriminate H |]). exact H.
Defined.

(** [create] of [server/src/checker.ts] fails exactly when the executable
    path is [null]; the [create] of the earlier variant never fails. *)
Lemma create_fails_on_null_only (E : Env) :
  (exists reason,
     DrupalCheck.create E None
     = Throw (newError (format E (CreateCheckerError (SR E)) [Some reason]))) /\
  (forall executablePath,
     exists this, DrupalCheck.create E (Some executablePath) = Normal this) /\
  (forall executablePath,
     DrupalCheckPromise.create E executablePath
     = Normal (DrupalCheckPromise.new executablePath)).
Proof.
  split; [| split].
  - eexists. unfold DrupalCheck.create. simpl. reflexivity.
  - intros executablePath. unfold DrupalCheck.create. simpl. eauto.
  - intros executablePath. reflexivity.
Qed.

Lemma validationAttempt_null_path (E : Env) (document : TextDocument)
    (settings : CheckerSettings) :
  executablePath settings = None ->
  validationAttempt E document settings
  = ([], Throw (newError (format E (CreateCheckerError (SR E))
                            [Some "Cannot read property 'startsWith' of null"]))).
Proof.
  intros Hnone. unfold validationAttempt. rewrite Hnone. reflexivity.
Qed.

(** X7: with an executable path that is [null], a validation with the
    checker enabled starts no process: it sends the start and end
    notifications and the empty diagnostic set only, and throws an [Error]
    whose text is that of the creation error, made a single line by
    [getExceptionMessage]. *)
Theorem validateSingle_null_path_no_spawn (E : Env) (document : TextDocument)
    (st st1 : Server.ServerState) (settings : CheckerSettings) :
  Server.getDocumentSettings E (uri document) st = (st1, Normal (Ok settings)) ->
  enable settings = true ->
  executablePath settings = None ->
  Server.trace (fst (Server.validateSingle E document st))
  = (Server.trace st ++ startEvents E document ++ endEvents E document
       ++ [SendDiagnostics (uri document) (Some [])])%list /\
  spawned (sentBetween st (fst (Server.validateSingle E document st))) = 0%nat /\
  exists reason,
    snd (Server.validateSingle E document st)
    = Throw (newError
               (Server.getExceptionMessage E
                  (newError (format E (CreateCheckerError (SR E)) [Some reason]))
                  document)).
Proof.
  intros Hget Henable Hnone.
  rewrite (validateSingle_enabled E document st st1 settings Hget Henable).
  rewrite (validationAttempt_null_path E document settings Hnone). simpl.
  split; [reflexivity |]. split.
  - unfold sentBetween. simpl. rewrite drop_app_length. reflexivity.
  - eexists. reflexivity.
Qed.

(** X7, witness: the sample document under settings without an executable
    path. *)
Lemma validateSingle_null_path_no_spawn_witness :
  spawned (sentBetween (Example.state_initial Example.settings_no_executable)
             (fst (Server.validateSingle Example.env_one Example.document_php
                     (Example.state_initial Example.settings_no_executable))))
  = 0%nat.
Proof.
  apply (validateSingle_null_path_no_spawn Example.env_one Example.document_php
           (Example.state_initial Example.settings_no_executable)
           (Example.state_initial Example.settings_no_executable)
           Example.settings_no_executable); reflexivity.
Defined.

(** ** The text of an exception *)

Lemma replaceNewlines_no_line_feed_bounded (n : nat) :
  forall s, (String.length s <= n)%nat -> ~ occurs "010" (replaceNewlines s).
Proof.
  unfold occurs. induction n as [| n IH]; intros s Hlen.
  - destruct s; [simpl; tauto | simpl in Hlen; lia].
  - destruct s as [| c s']; [simpl; tauto |].
    simpl in Hlen. simpl.
    destruct (Ascii.eqb_spec c "010") as [-> | Hc].
    + simpl. intros [H | H]; [discriminate H | apply (IH s'); [lia | exact H]].
    + destruct (Ascii.eqb_spec c "013") as [-> | Hc'].
      * destruct s' as [| d s'']; [simpl; intros [H | H]; [discriminate H | exact H] |].
        simpl in Hlen.
        destruct (Ascii.eqb_spec d "010") as [-> | Hd].
        -- simpl. intros [H | H]; [discriminate H | apply (IH s''); [lia | exact H]].
        -- simpl. intros [H | H]; [discriminate H |].
           apply (IH (String d s'')); [simpl; lia | exact H].
      * simpl. intros [H | H]; [congruence | apply (IH s'); [lia | exact H]].
Qed.

Lemma occurs_slice (c : ascii) (s : string) (n : nat) :
  occurs c (slice s n) -> occurs c s.
Proof.
  unfold occurs. revert s. induction n as [| n IH]; intros s; [destruct s; auto |].
  destruct s as [| d s']; simpl; [auto |].
  intros H. right. apply IH. exact H.
Qed.

Lemma prefix_empty (s : string) : String.prefix "" s = true.
Proof. destruct s; reflexivity. Qed.

(** X8: the text that [getExceptionMessage] makes of an exception with a
    string message is a single line: it holds no line feed. *)
Theorem getExceptionMessage_single_line (E : Env) (exception : JSError)
    (document : TextDocument) (text : string) :
  err_message exception = Some text ->
  ~ occurs "010" (Server.getExceptionMessage E exception document).
Proof.
  intros Hmsg. unfold Server.getExceptionMessage. rewrite Hmsg.
  pose proof (replaceNewlines_no_line_feed_bounded (String.length text) text (le_n _))
    as Hno.
  destruct (startsWith (replaceNewlines text) "ERROR: "); [| exact Hno].
  intros H. apply Hno. apply (occurs_slice _ _ _ H).
Qed.

(** X8, witness: a message of two lines separated by a carriage return and a
    line feed. *)
Lemma getExceptionMessage_single_line_witness :
  ~ occurs "010"
      (Server.getExceptionMessage Example.env_one
         (newError ("first" +:+ String "013" (String "010" "second")))
         Example.document_php).
Proof.
  apply (getExceptionMessage_single_line Example.env_one
           (newError ("first" +:+ String "013" (String "010" "second")))
           Example.document_php
           ("first" +:+ String "013" (String "010" "second"))).
  reflexivity.
Defined.

(** X9: of a message that starts with [ERROR: ] only the five characters
    [ERROR] are removed: the text that [getExceptionMessage] returns starts
    with the colon and the space, followed by the rest with its line breaks
    replaced. *)
Theorem getExceptionMessage_error_prefix (E : Env) (exception : JSError)
    (document : TextDocument) (rest : string) :
  err_message exception = Some ("ERROR: " +:+ rest) ->
  Server.getExceptionMessage E exception document = ": " +:+ replaceNewlines rest.
Proof.
  intros Hmsg. unfold Server.getExceptionMessage. rewrite Hmsg.
  change ("ERROR: " +:+ rest)
    with (String "E" (String "R" (String "R" (String "O" (String "R"
           (String ":" (String " " rest))))))).
  unfold startsWith. simpl. rewrite prefix_empty. reflexivity.
Qed.

(** X9, witness: the message [ERROR: boom]. *)
Lemma getExceptionMessage_error_prefix_witness :
  Server.getExceptionMessage Example.env_one (newError "ERROR: boom") Example.document_php
  = ": boom".
Proof.
  apply (getExceptionMessage_error_prefix Example.env_one (newError "ERROR: boom")
           Example.document_php "boom").
  reflexivity.
Defined.

(** ** Ranges *)

Lemma split_not_empty (sep : ascii) (s : string) :
  exists l ls, split sep s = l :: ls.
Proof.
  induction s as [| c s' (l & ls & IH)]; simpl; [eauto |].
  destruct (Ascii.eqb c sep); [eauto |]. rewrite IH. eauto.
Qed.

Lemma startCharacter_le (E : Env) (lineString : string) :
  (startCharacter E lineString <= String.length lineString)%nat.
Proof.
  unfold startCharacter.
  destruct (isWhiteSpace E (charCodeAt lineString 0)) eqn:H0; [| lia].
  destruct lineString as [| c s']; [simpl; lia |].
  destruct (startCharacter_loop_spec E (String c s') (String.length (String c s'))
              (String.length (String c s')) 1%nat) as [Hlt _].
  - simpl. lia.
  - lia.
  - intros j Hj. assert (j = 0%nat) as -> by lia. exact H0.
  - change (1 - 1)%nat with 0%nat in Hlt. change (0 + 1)%nat with 1%nat. lia.
Qed.

(** X10: every diagnostic that [createDiagnostic] returns has a range inside
    the document: it starts and ends on one line, that line is a line of the
    document, and its columns satisfy 0 <= start <= end <= length of that
    line. *)
Theorem createDiagnostic_range_inside (E : Env) (document : TextDocument)
    (entry : option DrupalCheckMessage) (d : Diagnostic) :
  createDiagnostic E document entry = Normal d ->
  start_line (diag_range d) = end_line (diag_range d) /\
  exists lineString,
    index (linesOf document) (start_line (diag_range d)) = Some lineString /\
    0 <= start_character (diag_range d) /\
    start_character (diag_range d) <= end_character (diag_range d) /\
    end_character (diag_range d) <= Z.of_nat (String.length lineString).
Proof.
  assert (forall d0, d0 = emptyDiagnostic ->
            start_line (diag_range d0) = end_line (diag_range d0) /\
            exists lineString,
              index (linesOf document) (start_line (diag_range d0)) = Some lineString /\
              0 <= start_character (diag_range d0) /\
              start_character (diag_range d0) <= end_character (diag_range d0) /\
              end_character (diag_range d0) <= Z.of_nat (String.length lineString))
    as Hempty.
  { intros d0 ->. simpl. split; [reflexivity |].
    destruct (split_not_empty "010" (getText document)) as (l & ls & Hl).
    exists l. unfold linesOf, index. rewrite Hl. simpl. repeat split; lia. }
  destruct entry as [e |]; simpl.
  - destruct (String.eqb (message e) "").
    + intros H. inversion H. apply Hempty. reflexivity.
    + fold (linesOf document).
      destruct (index (linesOf document) (line e - 1)) as [lineString |] eqn:Hl;
        [| discriminate].
      intros H. inversion H; subst. simpl. split; [reflexivity |].
      exists lineString. split; [exact Hl |].
      pose proof (startCharacter_le E lineString). lia.
  - intros H. inversion H. apply Hempty. reflexivity.
Qed.

(** X10, witness: the message on line 5 of the sample document. *)
Lemma createDiagnostic_range_inside_witness :
  exists lineString,
    index (linesOf Example.document_php) 4 = Some lineString /\
    0 <= 4 /\ 4 <= 26 /\ 26 <= Z.of_nat (String.length lineString).
Proof.
  destruct (createDiagnostic_range_inside Example.env_one Example.document_php
              (Some (mkDrupalCheckMessage 5 "Deprecated call"))
              (Diagnostic_create (Range_create 4 4 4 26) "Deprecated call" SevError
                 "drupalchecker") eq_refl) as [_ H].
  exact H.
Defined.

(** ** Reports that do not name the file *)

(** X11: for a document whose URI has no file path [check] still starts the
    process, with an undefined path argument, and returns the empty list
    whenever the standard output is well-formed JSON, whatever the report
    holds. *)
Theorem check_without_file_path (E : Env) (this : DrupalCheck.t) (document : TextDocument)
    (settings : CheckerSettings) (output : SpawnSyncReturns) (out : string)
    (data : JSValue) :
  uriToFilePath E (uri document) = None ->
  getText document <> "" ->
  spawnSync E (DrupalCheck.this_executablePath this) (lintArgs None)
    (lintOptions settings (getText document)) = Ok output ->
  stdout output = Some out -> out <> "" ->
  JSON_parse E out = Some data ->
  DrupalCheck.check E this document settings
  = ([SpawnSync (DrupalCheck.this_executablePath this)
        [Some "--format=json"; Some "--no-progress"; None]
        (lintOptions settings (getText document));
      ConsoleInfo "Success!"],
     Normal (Some [])).
Proof.
  intros Hpath Htext Hspawn Hout Hne Hparse.
  assert (lintPath E document = None) as Hlint
    by (unfold lintPath; rewrite Hpath; reflexivity).
  rewrite <- Hlint in Hspawn.
  rewrite (check_stdout E this document settings output out Htext Hspawn Hout Hne).
  rewrite Hlint. unfold processResults, parseData. rewrite Hparse. reflexivity.
Qed.

(** X11, witness: an untitled document and the sample report. *)
Lemma check_without_file_path_witness :
  DrupalCheck.check Example.env_one (DrupalCheck.new "/usr/local/bin/drupal-check")
    MoreExamples.document_untitled Server.defaultSettings
  = ([SpawnSync "/usr/local/bin/drupal-check"
        [Some "--format=json"; Some "--no-progress"; None]
        (lintOptions Server.defaultSettings (getText MoreExamples.document_untitled));
      ConsoleInfo "Success!"],
     Normal (Some [])).
Proof.
  apply (check_without_file_path Example.env_one
           (DrupalCheck.new "/usr/local/bin/drupal-check")
           MoreExamples.document_untitled Server.defaultSettings
           (Example.exits 1 Example.report_one ""
              (getText MoreExamples.document_untitled))
           Example.report_one Example.report_one_value);
    try reflexivity; discriminate.
Defined.

(** X12: when the [files] mapping of the report has no entry for the real
    path of the file, or a falsy one, [processResults] returns the empty
    list and raises nothing. *)
Theorem processResults_missing_file_entry (E : Env) (filePath fileRealPath results : string)
    (document : TextDocument) (properties files : list (string * JSValue)) :
  JSON_parse E results = Some (JSObject properties) ->
  assoc "files" properties = JSObject files ->
  realpathSync E filePath = Ok fileRealPath ->
  truthy (assoc fileRealPath files) = false ->
  processResults E (Some filePath) document results = Normal [].
Proof.
  intros Hparse Hfiles Hreal Hfalsy.
  unfold processResults, parseData. rewrite Hparse. simpl.
  rewrite Hreal. simpl. rewrite Hfiles. simpl. rewrite Hfalsy. reflexivity.
Qed.

(** X12, witness: the report [{"files":{}}]. *)
Lemma processResults_missing_file_entry_witness :
  processResults MoreExamples.env_no_files (Some "/abs/path.php") Example.document_php
    MoreExamples.report_no_files
  = Normal [].
Proof.
  apply (processResults_missing_file_entry MoreExamples.env_no_files
           "/abs/path.php" "/abs/path.php" MoreExamples.report_no_files
           Example.document_php [("files", JSObject [])] []); reflexivity.
Defined.

(** ** What [check] does with failures *)

(** An exception of [processResults] is the invalid-JSON error, a
    [TypeError] of the runtime, or the error of [realpathSync]. *)
Lemma processResults_throw (E : Env) (filePath : option string) (document : TextDocument)
    (results : string) (e : JSError) :
  processResults E filePath document results = Throw e ->
  (err_stdout e = None /\ err_stderr e = None) \/
  exists path, realpathSync E path = Raise e.
Proof.
  unfold processResults, parseData.
  destruct (JSON_parse E results) as [data |]; simpl;
    [| intros H; inversion H; left; split; reflexivity].
  destruct filePath as [path |]; simpl; [| discriminate].
  destruct (realpathSync E path) as [fileRealPath | e0] eqn:Hreal; simpl;
    [| intros H; inversion H; subst; right; eauto].
  assert (forall v key e1, getProp v key = Throw e1 ->
            err_stdout e1 = None /\ err_stderr e1 = None) as Hprop.
  { intros v key e1. destruct v; simpl; intros H; inversion H; split; reflexivity. }
  destruct (getProp data "files") as [files | e1 |] eqn:H1; simpl;
    [| intros H; inversion H; subst; left; eapply Hprop; eauto | discriminate].
  destruct (getProp files fileRealPath) as [fileEntry | e1 |] eqn:H2; simpl;
    [| intros H; inversion H; subst; left; eapply Hprop; eauto | discriminate].
  destruct (truthy fileEntry); simpl; [| discriminate].
  destruct (getProp fileEntry "messages") as [messages | e1 |] eqn:H3; simpl;
    [| intros H; inversion H; subst; left; eapply Hprop; eauto | discriminate].
  intros H. left.
  destruct messages as [| | | | | elements |]; simpl in H;
    try (inversion H; split; reflexivity).
  rewrite (mapC_translate_throw E document elements e H). split; reflexivity.
Qed.

(** X13: once the process has been started and has returned, [check] of
    [server/src/checker.ts] never throws, provided the errors of
    [realpathSync] carry no [stdout] or [stderr] property: every exception
    of parsing the output or of translating the messages is caught by
    [check] itself, which then returns [undefined] and logs nothing about
    it. *)
Theorem check_swallows_failures (E : Env) (this : DrupalCheck.t) (document : TextDocument)
    (settings : CheckerSettings) (output : SpawnSyncReturns) :
  (forall path e, realpathSync E path = Raise e ->
                  err_stdout e = None /\ err_stderr e = None) ->
  spawnSync E (DrupalCheck.this_executablePath this) (lintArgs (lintPath E document))
    (lintOptions settings (getText document)) = Ok output ->
  (forall e, snd (DrupalCheck.check E this document settings) <> Throw e) /\
  (forall out e,
     getText document <> "" ->
     stdout output = Some out -> out <> "" ->
     processResults E (lintPath E document) document out = Throw e ->
     DrupalCheck.check E this document settings
     = ([SpawnSync (DrupalCheck.this_executablePath this) (lintArgs (lintPath E document))
           (lintOptions settings (getText document));
         ConsoleInfo "Success!"],
        Normal None)).
Proof.
  intros Hreal Hspawn.
  assert (forall out e,
            getText document <> "" ->
            stdout output = Some out -> out <> "" ->
            processResults E (lintPath E document) document out = Throw e ->
            DrupalCheck.check E this document settings
            = ([SpawnSync (DrupalCheck.this_executablePath this)
                  (lintArgs (lintPath E document))
                  (lintOptions settings (getText document));
                ConsoleInfo "Success!"],
               Normal None)) as Hswallow.
  { intros out e Htext Hout Hne Hthrow.
    rewrite (check_stdout E this document settings output out Htext Hspawn Hout Hne).
    rewrite Hthrow. simpl.
    assert (err_stdout e = None /\ err_stderr e = None) as [H1 H2].
    { destruct (processResults_throw E _ _ _ _ Hthrow) as [H | [path H]];
        [exact H | exact (Hreal path e H)]. }
    rewrite H1, H2. reflexivity. }
  split; [| exact Hswallow].
  intros e.
  destruct (String.eqb_spec (getText document) "") as [Hempty | Htext].
  - unfold DrupalCheck.check. rewrite Hempty. simpl. discriminate.
  - destruct (truthyString (stdout output)) eqn:Htruthy.
    + destruct (stdout output) as [out |] eqn:Hout; [| discriminate].
      assert (out <> "") as Hne.
      { intros ->. discriminate. }
      destruct (processResults E (lintPath E document) document out) as [ds | e0 |] eqn:Hr.
      * rewrite (check_stdout E this document settings output out Htext Hspawn Hout Hne).
        rewrite Hr. simpl. discriminate.
      * rewrite (Hswallow out e0 Htext eq_refl Hne Hr). simpl. discriminate.
      * rewrite (check_stdout E this document settings output out Htext Hspawn Hout Hne).
        rewrite Hr. simpl. discriminate.
    + rewrite (check_no_stdout E this document settings output Htext Hspawn Htruthy).
      simpl. discriminate.
Qed.

(** X13, witness: a standard output that is not JSON. *)
Lemma check_swallows_failures_witness :
  DrupalCheck.check MoreExamples.env_garbage (DrupalCheck.new "/usr/local/bin/drupal-check")
    Example.document_php Server.defaultSettings
  = ([SpawnSync "/usr/local/bin/drupal-check"
        (lintArgs (lintPath MoreExamples.env_garbage Example.document_php))
        (lintOptions Server.defaultSettings (getText Example.document_php));
      ConsoleInfo "Success!"],
     Normal None).
Proof.
  destruct (check_swallows_failures MoreExamples.env_garbage
              (DrupalCheck.new "/usr/local/bin/drupal-check")
              Example.document_php Server.defaultSettings
              (Example.exits 1 "PHP Warning: not a report" ""
                 (getText Example.document_php))) as [_ H].
  - intros path e H. discriminate H.
  - reflexivity.
  - apply (H "PHP Warning: not a report"
             (newError (InvalidJsonStringError (SR MoreExamples.env_garbage))));
      try reflexivity; discriminate.
Defined.

(** X14: in the promise-based variant a standard output that is not JSON has
    two outcomes: after exit status 0 the error is caught and [check]
    returns [undefined]; after a nonzero exit, where the output arrives on
    the rejection, [check] is rejected with the invalid-JSON error. *)
Theorem promise_check_invalid_json (E : Env) (this : DrupalCheckPromise.t)
    (document : TextDocument) (settings : CheckerSettings) (out : string) :
  getText document <> "" ->
  JSON_parse E out = None ->
  (spawn E (DrupalCheckPromise.this_executablePath this) (lintArgs (lintPath E document))
     (lintOptions settings (getText document)) = Ok out ->
   DrupalCheckPromise.check E this document settings
   = ([Spawn (DrupalCheckPromise.this_executablePath this) (lintArgs (lintPath E document))
         (lintOptions settings (getText document));
       ConsoleInfo "Success!"],
      Normal None)) /\
  (forall error,
     spawn E (DrupalCheckPromise.this_executablePath this) (lintArgs (lintPath E document))
       (lintOptions settings (getText document)) = Raise error ->
     err_stdout error = Some out -> out <> "" ->
     DrupalCheckPromise.check E this document settings
     = ([Spawn (DrupalCheckPromise.this_executablePath this)
           (lintArgs (lintPath E document))
           (lintOptions settings (getText document));
         ConsoleError "Issues found."],
        Throw (newError (InvalidJsonStringError (SR E))))).
Proof.
  intros Htext Hparse.
  assert (processResults E (lintPath E document) document out
          = Throw (newError (InvalidJsonStringError (SR E)))) as Hthrow.
  { unfold processResults, parseData. rewrite Hparse. reflexivity. }
  split.
  - intros Hspawn. unfold DrupalCheckPromise.check.
    rewrite (eqb_empty_false _ Htext), Hspawn. cbn -[processResults].
    rewrite Hthrow. reflexivity.
  - intros error Hspawn Herr Hne. unfold DrupalCheckPromise.check.
    rewrite (eqb_empty_false _ Htext), Hspawn. cbn -[processResults].
    rewrite Herr. cbn -[processResults].
    rewrite (eqb_empty_false _ Hne). cbn -[processResults].
    rewrite Hthrow. reflexivity.
Qed.

(** X14, witness: the same text on standard output after exit status 0 and
    after exit status 1. *)
Lemma promise_check_invalid_json_witness :
  snd (DrupalCheckPromise.check MoreExamples.env_garbage_ok
         (DrupalCheckPromise.new (Some "/usr/local/bin/drupal-check"))
         Example.document_php Server.defaultSettings)
  = Normal None /\
  snd (DrupalCheckPromise.check MoreExamples.env_garbage
         (DrupalCheckPromise.new (Some "/usr/local/bin/drupal-check"))
         Example.document_php Server.defaultSettings)
  = Throw (newError (InvalidJsonStringError (SR MoreExamples.env_garbage))).
Proof.
  split.
  - destruct (promise_check_invalid_json MoreExamples.env_garbage_ok
                (DrupalCheckPromise.new (Some "/usr/local/bin/drupal-check"))
                Example.document_php Server.defaultSettings
                "PHP Warning: not a report") as [H _];
      [discriminate | reflexivity |].
    rewrite H; reflexivity.
  - destruct (promise_check_invalid_json MoreExamples.env_garbage
                (DrupalCheckPromise.new (Some "/usr/local/bin/drupal-check"))
                Example.document_php Server.defaultSettings
                "PHP Warning: not a report") as [_ H];
      [discriminate | reflexivity |].
    rewrite (H (mkJSError KError (Some "Exited with status")
                  (Some "PHP Warning: not a report") (Some "")));
      try reflexivity; discriminate.
Defined.


(** ** Whole validations *)

Lemma getDocumentSettings_validating (E : Env) (resource : string)
    (st : Server.ServerState) :
  Server.validating (fst (Server.getDocumentSettings E resource st)) = Server.validating st.
Proof.
  unfold Server.getDocumentSettings.
  destruct (Server.hasConfigurationCapability st); simpl; [| reflexivity].
  destruct (Server.documentSettings st !! resource); reflexivity.
Qed.

(** X16: a validation with the checker enabled leaves no in-flight marker
    behind: afterwards the document is not among the documents being
    validated, whether the validation succeeded or threw, and the markers of
    other documents are as before. *)
Theorem validateSingle_clears_validating (E : Env) (document : TextDocument)
    (st st1 : Server.ServerState) (settings : CheckerSettings) :
  Server.getDocumentSettings E (uri document) st = (st1, Normal (Ok settings)) ->
  enable settings = true ->
  Server.validating (fst (Server.validateSingle E document st)) !! uri document = None /\
  (forall other, other <> uri document ->
     Server.validating (fst (Server.validateSingle E document st)) !! other
     = Server.validating st !! other).
Proof.
  intros Hget Henable.
  pose proof (getDocumentSettings_validating E (uri document) st) as Hval.
  rewrite Hget in Hval. simpl in Hval.
  rewrite (validateSingle_enabled E document st st1 settings Hget Henable). simpl.
  rewrite Hval. split.
  - apply lookup_delete_eq.
  - intros other Hne. rewrite lookup_delete_ne by congruence.
    apply lookup_insert_ne. congruence.
Qed.

(** X16, witness: the validation of the sample document that fails in the
    creation of the checker. *)
Lemma validateSingle_clears_validating_witness :
  Server.validating
    (fst (Server.validateSingle Example.env_one Example.document_php
            (Example.state_initial Example.settings_no_executable)))
    !! uri Example.document_php = None.
Proof.
  destruct (validateSingle_clears_validating Example.env_one Example.document_php
              (Example.state_initial Example.settings_no_executable)
              (Example.state_initial Example.settings_no_executable)
              Example.settings_no_executable eq_refl eq_refl) as [H _].
  exact H.
Defined.

(** A validation that completes normally has published one diagnostic set,
    for its document. *)
Lemma validateSingle_normal_events (E : Env) (document : TextDocument)
    (st st' : Server.ServerState) :
  Server.validateSingle E document st = (st', Normal tt) ->
  exists evs diagnostics,
    Server.trace st' = (Server.trace st ++ evs)%list /\
    published evs = [(uri document, diagnostics)].
Proof.
  intros Hrun.
  destruct (validateSingle_cases E document st) as (st1 & _ & [[settings Hget] | [e Hget]]).
  - destruct (enable settings) eqn:Henable.
    + rewrite (validateSingle_enabled E document st st1 settings Hget Henable) in Hrun.
      inversion Hrun as [[Hst Hres]]. simpl.
      exists (startEvents E document ++ fst (validationAttempt E document settings)
                ++ endEvents E document
                ++ [SendDiagnostics (uri document)
                      match snd (validationAttempt E document settings) with
                      | Normal diagnostics => diagnostics
                      | _ => Some []
                      end])%list.
      eexists. split; [reflexivity |].
      rewrite !published_app. rewrite (validationAttempt_published E document settings).
      reflexivity.
    + rewrite (validateSingle_not_enabled E document st st1 settings Hget Henable) in Hrun.
      inversion Hrun. simpl. eexists. eexists. split; reflexivity.
  - rewrite (validateSingle_rejected E document st st1 e Hget) in Hrun. discriminate.
Qed.

Lemma validateMany_normal_events (E : Env) (documents : list TextDocument) :
  forall st st',
    Server.validateMany E documents st = (st', Normal tt) ->
    exists evs,
      Server.trace st' = (Server.trace st ++ evs)%list /\
      map fst (published evs) = map uri documents.
Proof.
  induction documents as [| document rest IH]; intros st st' Hrun.
  - simpl in Hrun. inversion Hrun. exists []. rewrite app_nil_r. split; reflexivity.
  - simpl in Hrun. unfold Server.sbind in Hrun.
    destruct (Server.validateSingle E document st) as [st1 [[] | e |]] eqn:Hone;
      try discriminate.
    destruct (validateSingle_normal_events E document st st1 Hone)
      as (evs1 & diagnostics & Htrace1 & Hpub1).
    destruct (IH st1 st' Hrun) as (evs2 & Htrace2 & Hpub2).
    exists (evs1 ++ evs2)%list. split.
    + rewrite Htrace2, Htrace1, app_assoc. reflexivity.
    + rewrite published_app, map_app, Hpub1, Hpub2. reflexivity.
Qed.

(** X17: a batch that completes normally has published exactly one
    diagnostic set per document, for the URIs of the documents in the order
    of the batch. *)
Theorem validateMany_publishes_each (E : Env) (documents : list TextDocument)
    (st st' : Server.ServerState) :
  Server.validateMany E documents st = (st', Normal tt) ->
  map fst (published (sentBetween st st')) = map uri documents.
Proof.
  intros Hrun.
  destruct (validateMany_normal_events E documents st st' Hrun) as (evs & Htrace & Hpub).
  unfold sentBetween. rewrite Htrace, drop_app_length. exact Hpub.
Qed.

(** X17, witness: the sample document followed by the empty document. *)
Lemma validateMany_publishes_each_witness :
  map fst (published
             (sentBetween (Example.state_initial Server.defaultSettings)
                (fst (Server.validateMany Example.env_one
                        [Example.document_php; Example.document_empty]
                        (Example.state_initial Server.defaultSettings)))))
  = ["file:///abs/path.php"; "file:///abs/path.php"].
Proof.
  apply (validateMany_publishes_each Example.env_one
           [Example.document_php; Example.document_empty]
           (Example.state_initial Server.defaultSettings)).
  vm_compute. reflexivity.
Defined.

(** X18: when the checker is created and [check] returns, [validateSingle]
    publishes exactly the value that [check] returned, after everything
    [check] did and after the end notification, and completes normally; this
    includes the value [undefined]. *)
Theorem validateSingle_publishes_check_result (E : Env) (document : TextDocument)
    (st st1 : Server.ServerState) (settings : CheckerSettings) (this : DrupalCheck.t)
    (evs : list Event) (diagnostics : option (list Diagnostic)) :
  Server.getDocumentSettings E (uri document) st = (st1, Normal (Ok settings)) ->
  enable settings = true ->
  DrupalCheck.create E (executablePath settings) = Normal this ->
  DrupalCheck.check E this document settings = (evs, Normal diagnostics) ->
  snd (Server.validateSingle E document st) = Normal tt /\
  sentBetween st (fst (Server.validateSingle E document st))
  = (startEvents E document ++ evs ++ endEvents E document
       ++ [SendDiagnostics (uri document) diagnostics])%list /\
  published (sentBetween st (fst (Server.validateSingle E document st)))
  = [(uri document, diagnostics)].
Proof.
  intros Hget Henable Hcreate Hcheck.
  pose proof (check_published E this document settings) as Hpub.
  rewrite Hcheck in Hpub. simpl in Hpub.
  rewrite (validateSingle_enabled E document st st1 settings Hget Henable).
  unfold validationAttempt, pure, lbind. rewrite Hcreate, Hcheck. simpl.
  split; [reflexivity |].
  unfold sentBetween. simpl. rewrite drop_app_length.
  split; [reflexivity |].
  simpl. rewrite published_app, Hpub. reflexivity.
Qed.

(** X18, witness: the sample document and the sample report of one
    message. *)
Lemma validateSingle_publishes_check_result_witness :
  published
    (sentBetween (Example.state_initial Server.defaultSettings)
       (fst (Server.validateSingle Example.env_one Example.document_php
               (Example.state_initial Server.defaultSettings))))
  = [("file:///abs/path.php",
      Some [Diagnostic_create (Range_create 4 4 4 26) "Deprecated call" SevError
              "drupalchecker"])].
Proof.
  apply (validateSingle_publishes_check_result Example.env_one Example.document_php
           (Example.state_initial Server.defaultSettings)
           (Example.state_initial Server.defaultSettings)
           Server.defaultSettings (DrupalCheck.new "/usr/local/bin/drupal-check")
           [SpawnSync "/usr/local/bin/drupal-check"
              (lintArgs (Some "/abs/path.php"))
              (lintOptions Server.defaultSettings (getText Example.document_php));
            ConsoleInfo "Success!"]);
    reflexivity.
Defined.
